(** * NGO food dashboard (new.py): a shallow embedding and its properties

    The program is one Streamlit script.  Every interaction re-executes the
    script from its first line in a fresh namespace; the only state that
    survives a run is [st.session_state.active_page] and the two CSV files
    [data/inventory.csv] and [data/waste_log.csv].

    What is modelled, and how:
    - the disk is the directory [data/], which exists or not, and the files
      in it; the script never creates the directory, and a write into a
      directory that does not exist raises OSError;
    - a CSV file is the list of its records as the tokenizer of [read_csv]
      delivers them, each the list of its field texts; the framing done by
      the csv writer (quoting, separators, line ends) is lossless and is not
      modelled, and blank lines are no records;
    - a pandas scalar is a [value]: a missing value (NaN), an integer, a
      text, or a [datetime.date] object;
    - a DataFrame is its column names and its rows, each row with its index
      label, here always a position;
    - pandas is described for int64 columns, text columns and columns of
      missing values only.  Where [read_csv] would infer another column type
      (float64, bool, uint64), would take an index from the file, would
      rename a column or would type a long file chunk by chunk, and where
      an operation would turn integers into floats, the result is [Beyond]:
      the run has left what this development describes, and nothing is said
      about it from there on;
    - a run of the script is a computation in a small state-and-exception
      monad over the disk, the namespace of the DataFrame variables of the
      script, and the widgets rendered so far;
    - the values returned by the widgets (buttons, text inputs, selections)
      and the system date are inputs of a run.  The script is a function of
      these values whatever they are; [browser_run] says which button values
      Streamlit delivers together. *)

From Stdlib Require Import ZArith String Ascii DecimalString DecimalZ List Lia.
From stdpp Require Import gmap strings list.

Local Open Scope string_scope.

(** ** Dates and their text forms *)

Record date := mkdate { year : Z; month : Z; day : Z }.

(** [str] of a Python int *)
Definition str_int (z : Z) : string := NilZero.string_of_int (Z.to_int z).

Fixpoint zeros (n : nat) : string :=
  match n with
  | O => ""
  | S k => String "0" (zeros k)
  end.

(** [zfill w s]: [s] padded on the left with zeros to width [w] *)
Definition zfill (w : nat) (s : string) : string :=
  zeros (w - String.length s) +:+ s.

(** [datetime.today().strftime('%Y-%m-%d')] and [str] of a [datetime.date];
    the two agree on the four-digit years the system clock and the date
    widget produce. *)
Definition strftime_Ymd (d : date) : string :=
  zfill 4 (str_int (year d)) +:+ "-" +:+ zfill 2 (str_int (month d))
    +:+ "-" +:+ zfill 2 (str_int (day d)).

Definition isoformat (d : date) : string := strftime_Ymd d.


Definition is_digit (c : ascii) : bool :=
  (48 <=? nat_of_ascii c)%nat && (nat_of_ascii c <=? 57)%nat.


(** the number that decimal digits denote *)
Fixpoint number_of (acc : Z) (cs : list ascii) : option Z :=
  match cs with
  | [] => Some acc
  | c :: cs' =>
      if is_digit c
      then number_of (10 * acc + (Z.of_nat (nat_of_ascii c) - 48)) cs'
      else None
  end.

(** the date that a text of the shape YYYY-MM-DD denotes *)
Definition read_Ymd (s : string) : option date :=
  match list_ascii_of_string s with
  | [y1; y2; y3; y4; h1; m1; m2; h2; d1; d2] =>
      if Ascii.eqb h1 "-" && Ascii.eqb h2 "-" then
        match number_of 0 [y1; y2; y3; y4], number_of 0 [m1; m2],
              number_of 0 [d1; d2] with
        | Some y, Some m, Some d => Some (mkdate y m d)
        | _, _, _ => None
        end
      else None
  | _ => None
  end.

(** ** Scalars *)

Inductive value :=
| VNaN
| VInt (z : Z)
| VStr (s : string)
| VDate (d : date).

Global Instance date_eq_dec : EqDecision date.
Proof. solve_decision. Defined.

Global Instance value_eq_dec : EqDecision value.
Proof. solve_decision. Defined.

(** ** CSV text fields

    [to_csv] writes a missing value as the empty field ([na_rep=''])
    and everything else through [str]. *)
Definition render (v : value) : string :=
  match v with
  | VNaN => ""
  | VInt z => str_int z
  | VStr s => s
  | VDate d => isoformat d
  end.

(** The fields [read_csv] takes for a missing value
    ([keep_default_na=True], pandas' STR_NA_VALUES). *)
Definition na_values : list string :=
  [""; "#N/A"; "#N/A N/A"; "#NA"; "-1.#IND"; "-1.#QNAN"; "-NaN"; "-nan";
   "1.#IND"; "1.#QNAN"; "<NA>"; "N/A"; "NA"; "NULL"; "NaN"; "None";
   "n/a"; "nan"; "null"].

Definition is_na (s : string) : bool := bool_decide (s ∈ na_values).

Definition int64_min : Z := - 2 ^ 63.
Definition int64_max : Z := 2 ^ 63 - 1.

(** the [+] that may stand before the digits of an integer literal *)
Definition strip_plus (s : string) : string :=
  match s with
  | String "+" (String c s') => if is_digit c then String c s' else s
  | _ => s
  end.

(** A plain integer literal: an optional sign and decimal digits, in the
    range of int64.  [read_csv] reads more fields as integers than these
    (it skips blanks around the digits); such fields are not plain, and a
    column is only called an integer column below when all its fields are
    plain. *)
Definition parse_int64 (s : string) : option Z :=
  match NilZero.int_of_string (strip_plus s) with
  | Some d =>
      let z := Z.of_int d in
      if (int64_min <=? z)%Z && (z <=? int64_max)%Z then Some z else None
  | None => None
  end.

Definition is_int (s : string) : bool :=
  match parse_int64 s with Some _ => true | None => false end.

(** *** Fields that are text for certain

    [read_csv] makes a column a text column when one of its fields is
    neither missing, nor a number, nor a truth value.  [number_shaped] and
    [special_word] accept every field that the number and truth value
    parsers of pandas accept, and more: a field that they both refuse is
    text for certain. *)

Definition is_space (c : ascii) : bool :=
  (nat_of_ascii c =? 32)%nat
  || ((9 <=? nat_of_ascii c)%nat && (nat_of_ascii c <=? 13)%nat).

Definition is_sign (c : ascii) : bool := Ascii.eqb c "+" || Ascii.eqb c "-".

Fixpoint skip (p : ascii -> bool) (l : list ascii) : list ascii :=
  match l with
  | c :: l' => if p c then skip p l' else l
  | [] => []
  end.

Definition skip_sign (l : list ascii) : list ascii :=
  match l with
  | c :: l' => if is_sign c then l' else l
  | [] => []
  end.

Definition skip_exponent (l : list ascii) : list ascii :=
  match l with
  | c :: l' =>
      if Ascii.eqb c "e" || Ascii.eqb c "E"
      then skip is_digit (skip_sign l')
      else l
  | [] => []
  end.

(** blanks, a sign, digits and points, an exponent, blanks *)
Definition number_shaped (s : string) : bool :=
  match skip is_space
          (skip_exponent
             (skip (fun c => is_digit c || Ascii.eqb c ".")
                (skip_sign (skip is_space (list_ascii_of_string s))))) with
  | [] => true
  | _ => false
  end.

Definition lower (c : ascii) : ascii :=
  if (65 <=? nat_of_ascii c)%nat && (nat_of_ascii c <=? 90)%nat
  then ascii_of_nat (nat_of_ascii c + 32)
  else c.

(** the infinities, NaN and the truth values, in any case, with any signs
    and blanks *)
Definition special_word (s : string) : bool :=
  bool_decide
    (string_of_list_ascii
       (map lower
          (filter (fun c => negb (is_space c || is_sign c))
                  (list_ascii_of_string s)))
     ∈ ["inf"; "infinity"; "nan"; "true"; "false"]).

Definition texty (s : string) : bool :=
  negb (is_na s) && negb (is_int s)
  && negb (number_shaped s) && negb (special_word s).

(** ** DataFrames *)

Record DataFrame := mkDF {
  columns : list string;
  rows : list (nat * list value)   (* index label, cells *)
}.

Global Instance DataFrame_eq_dec : EqDecision DataFrame.
Proof. solve_decision. Defined.

Definition index (df : DataFrame) : list nat := map fst (rows df).
Definition data (df : DataFrame) : list (list value) := map snd (rows df).

(** [len(df)] *)
Definition len (df : DataFrame) : nat := length (rows df).

(** [df.empty]: no rows or no columns *)
Definition empty (df : DataFrame) : bool :=
  match rows df, columns df with
  | [], _ | _, [] => true
  | _, _ => false
  end.

(** [pd.DataFrame(columns=cols)] *)
Definition DataFrame_columns (cols : list string) : DataFrame := mkDF cols [].

(** [pd.DataFrame([cells], columns=cols)] *)
Definition DataFrame_row (cells : list value) (cols : list string) : DataFrame :=
  mkDF cols [(0, cells)].

(** RangeIndex labels 0, 1, ... for a list of rows *)
Definition range_index (rs : list (list value)) : list (nat * list value) :=
  imap (fun i r => (i, r)) rs.

(** ** Files *)

(** the content of a CSV file: its records, the header first *)
Abbreviation csv := (list (list string)).

(** the exceptions of a run.  [TypeError] and [OverflowError] belong to
    [int] of a value that is not a number and of an infinite sum; the
    script only calls [int] on the greatest value of a Series of integer
    sums. *)
Inductive exn :=
| NameError (name : string)
| KeyError (key : string)
| FileNotFoundError (path : string)
| OSError (path : string)
| EmptyDataError
| ParserError
| TypeError
| ValueError
| OverflowError.

(** What a computation ends with: a result, an exception, or [Beyond] when
    it has left what is described here. *)
Inductive result (A : Type) :=
| Ok (a : A)
| Raise (e : exn)
| Beyond.
Arguments Ok {A} a.
Arguments Raise {A} e.
Arguments Beyond {A}.

(** the field of record [r] under column [j]; a short record is padded *)
Definition field (r : list string) (j : nat) : string := nth j r "".

(** the column types described here: int64, the float64 column in which
    every value is missing, and text (object) *)
Inductive dtype := Int64 | AllMissing | Object.

Global Instance dtype_eq_dec : EqDecision dtype.
Proof. solve_decision. Defined.

(** The type [read_csv] infers for column [j]: int64 when every field is a
    plain integer, missing values when every field is missing, text when
    some field is text for certain or there is no record.  Any other column
    ([None]) may come out as float64, bool, uint64 or text, with values
    that are written back in another form ([10] beside a missing value as
    [10.0], [1.50] as [1.5]). *)
Definition col_kind (recs : list (list string)) (j : nat) : option dtype :=
  let fields := map (fun r => field r j) recs in
  if bool_decide (recs = []) then Some Object
  else if forallb is_int fields then Some Int64
  else if forallb is_na fields then Some AllMissing
  else if existsb texty fields then Some Object
  else None.

Definition convert_cell (k : dtype) (s : string) : value :=
  match k with
  | Int64 => match parse_int64 s with Some z => VInt z | None => VNaN end
  | AllMissing => VNaN
  | Object => if is_na s then VNaN else VStr s
  end.

Definition convert_row (kinds : list dtype) (r : list string) : list value :=
  imap (fun j k => convert_cell k (field r j)) kinds.

(** the header gives every column a name of its own; otherwise [read_csv]
    renames columns *)
Definition header_ok (header : list string) : bool :=
  bool_decide (header ≠ [] ∧ NoDup header ∧ "" ∉ header).

(** [read_csv] reads a long file in chunks ([low_memory=True]) and types
    the columns chunk by chunk, so that a column can come out with integers
    in one chunk and texts in another.  For a table of [w] columns a chunk
    holds a power of two of records that is at least half of [2^20 / w]: a
    file is read in one chunk, and its columns are typed from all its
    records, when twice its records times its columns is at most 2^20. *)
Definition one_chunk (header : list string) (recs : list (list string))
  : bool :=
  (2 * Z.of_nat (length recs) * Z.of_nat (length header) <=? 2 ^ 20)%Z.

(** [pd.read_csv] on the content of a file.  A file without a line has no
    columns to parse.  The first record is the header.  A data record after
    the first with more fields than the header is a parse error; a shorter
    record is padded with missing values; the index is a fresh RangeIndex.
    When the first data record is longer than the header, pandas takes
    index labels from the file: that, a renamed column, a file read in
    several chunks and a column type other than the three above are
    [Beyond].  A record without fields is not a record of a file. *)
Definition parse_csv (f : csv) : result DataFrame :=
  match f with
  | [] => Raise EmptyDataError
  | header :: recs =>
      if negb (header_ok header)
         || negb (one_chunk header recs)
         || existsb (fun r => (length r =? 0)%nat) recs
         || match recs with
            | r1 :: _ => (length header <? length r1)%nat
            | [] => false
            end
      then Beyond
      else if existsb (fun r => (length header <? length r)%nat) recs
      then Raise ParserError
      else match mapM (col_kind recs) (seq 0 (length header)) with
           | Some kinds =>
               Ok (mkDF header (range_index (map (convert_row kinds) recs)))
           | None => Beyond
           end
  end.

(** [df.to_csv(..., index=False)]: the header, then one record per row *)
Definition render_csv (df : DataFrame) : csv :=
  columns df :: map (map render) (data df).

(** the data records of a file *)
Definition records (f : csv) : list (list string) := tail f.

(** ** The pandas operations the script calls *)

Fixpoint col_pos (name : string) (cols : list string) : option nat :=
  match cols with
  | [] => None
  | c :: cols' =>
      if decide (c = name) then Some 0 else option_map S (col_pos name cols')
  end.

Definition cell (r : list value) (j : nat) : value := nth j r VNaN.

(** [df[name]]: the cells of one column, in row order *)
Definition column (name : string) (df : DataFrame) : result (list value) :=
  match col_pos name (columns df) with
  | Some j => Ok (map (fun r => cell r j) (data df))
  | None => Raise (KeyError name)
  end.

(** [Series.unique()]: the distinct values in order of first appearance
    (a missing value counts as one value) *)
Fixpoint unique (l : list value) : list value :=
  match l with
  | [] => []
  | x :: l' => x :: filter (fun y => y ≠ x) (unique l')
  end.

Definition align (cols : list string) (df : DataFrame) (r : list value)
  : list value :=
  map (fun c => match col_pos c (columns df) with
                | Some j => cell r j
                | None => VNaN
                end) cols.

Definition is_VInt (v : value) : bool :=
  match v with VInt _ => true | _ => false end.
Definition is_VNaN (v : value) : bool :=
  match v with VNaN => true | _ => false end.
Definition is_text (v : value) : bool :=
  match v with VStr _ | VDate _ => true | _ => false end.

(** cells that pandas puts into one float64 column: integers beside missing
    values, with no text among them.  The integers then become floats, and
    are written back as [3.0]. *)
Definition promotes (cells : list value) : bool :=
  existsb is_VInt cells && existsb is_VNaN cells && negb (existsb is_text cells).

(** [pd.concat([a, b], ignore_index=True)]: the columns of [a], then those
    of [b] that [a] lacks; each row is aligned to them by column name, with
    a missing value where its frame has no such column; rows are relabelled
    0, 1, ...  The type of a column of the result is read off its cells, as
    it is for frames that [read_csv] and [pd.DataFrame] have just built,
    which is where the script calls it; a column in which integers would
    turn into floats is [Beyond]. *)
Definition concat (a b : DataFrame) : result DataFrame :=
  let cols :=
    (columns a ++ filter (fun c => c ∉ columns a) (columns b))%list in
  let rs := (map (align cols a) (data a) ++ map (align cols b) (data b))%list in
  if existsb (fun j => promotes (map (fun r => cell r j) rs))
             (seq 0 (length cols))
  then Beyond
  else Ok (mkDF cols (range_index rs)).

Definition str_nat (n : nat) : string := str_int (Z.of_nat n).

(** [df.drop(index=i)]: the rows labelled [i] are removed, the other rows
    keep their labels; an absent label is a KeyError *)
Definition drop (i : nat) (df : DataFrame) : result DataFrame :=
  if bool_decide (i ∈ index df)
  then Ok (mkDF (columns df) (filter (fun r => r.1 ≠ i) (rows df)))
  else Raise (KeyError (str_nat i)).

(** [df.loc[[i]]]: the frame of the rows labelled [i] *)
Definition loc (i : nat) (df : DataFrame) : result DataFrame :=
  if bool_decide (i ∈ index df)
  then Ok (mkDF (columns df) (filter (fun r => r.1 = i) (rows df)))
  else Raise (KeyError (str_nat i)).

(** [df.loc[x, name]] *)
Definition loc_cell (x : nat) (name : string) (df : DataFrame) : result value :=
  match col_pos name (columns df), list_find (fun r => r.1 = x) (rows df) with
  | Some j, Some (_, r) => Ok (cell r.2 j)
  | None, _ => Raise (KeyError name)
  | _, None => Raise (KeyError (str_nat x))
  end.

(** A Series: labels with integer values *)
Definition Series := list (value * Z).

Fixpoint insert_by {A} (leb : A -> A -> bool) (x : A) (l : list A) : list A :=
  match l with
  | [] => [x]
  | y :: l' => if leb x y then x :: l else y :: insert_by leb x l'
  end.

Definition sort_by {A} (leb : A -> A -> bool) (l : list A) : list A :=
  foldr (insert_by leb) [] l.

(** the order of group keys: integers by value, texts by code points *)
Definition value_leb (a b : value) : bool :=
  match a, b with
  | VInt x, VInt y => (x <=? y)%Z
  | VStr x, VStr y => String.leb x y
  | VInt _, _ => true
  | _, VInt _ => false
  | VStr _, _ => true
  | _, VStr _ => false
  | _, _ => true
  end.

Definition as_int (v : value) : option Z :=
  match v with VInt z => Some z | _ => None end.

(** the sum of the integers of the rows whose key is [k] *)
Fixpoint sum_of (k : value) (keys : list value) (vals : list Z) : Z :=
  match keys, vals with
  | k' :: keys', v :: vals' =>
      ((if decide (k' = k) then v else 0) + sum_of k keys' vals')%Z
  | _, _ => 0%Z
  end.

(** int64 arithmetic: a sum that leaves the range wraps around *)
Definition wrap64 (z : Z) : Z := ((z + 2 ^ 63) mod 2 ^ 64 - 2 ^ 63)%Z.

(** [df.groupby(by)[col].sum()] with the defaults [sort=True, dropna=True]:
    one entry per distinct key that is not missing, in key order, holding
    the int64 sum of [col] over the rows with that key.  A value column
    that is not an integer column is summed by pandas in floating point or
    as text: [Beyond]. *)
Definition groupby_sum (by_ col : string) (df : DataFrame) : result Series :=
  match column by_ df with
  | Ok keys =>
      match column col df with
      | Ok cells =>
          match mapM as_int cells with
          | None => Beyond
          | Some vals =>
              let ks := sort_by value_leb
                          (unique (filter (fun k => k ≠ VNaN) keys)) in
              Ok (map (fun k => (k, wrap64 (sum_of k keys vals))) ks)
          end
      | Raise e => Raise e
      | Beyond => Beyond
      end
  | Raise e => Raise e
  | Beyond => Beyond
  end.

(** [Series.sort_values(ascending=False)] *)
Definition sort_values_desc (s : Series) : Series :=
  sort_by (fun a b => (b.2 <=? a.2)%Z) s.

(** [Series.idxmax()]: the label of the first greatest value; it raises on
    an empty Series *)
Fixpoint argmax (best : value * Z) (s : Series) : value * Z :=
  match s with
  | [] => best
  | p :: s' => if (best.2 <? p.2)%Z then argmax p s' else argmax best s'
  end.

Definition idxmax (s : Series) : result value :=
  match s with
  | [] => Raise ValueError
  | p :: s' => Ok (argmax p s').1
  end.

(** [Series.max()]: NaN on an empty Series *)
Definition series_max (s : Series) : value :=
  match s with
  | [] => VNaN
  | p :: s' => VInt (argmax p s').2
  end.

(** [int(v)]; of a text only for a plain integer literal *)
Definition int_ (v : value) : result Z :=
  match v with
  | VInt z => Ok z
  | VNaN => Raise ValueError
  | VStr s => match parse_int64 s with Some z => Ok z | None => Beyond end
  | VDate _ => Raise TypeError
  end.

(** ** Widgets *)

(** What a run shows; headers, styling and the input widgets themselves
    are not recorded. *)
Inductive ui :=
| Metric (label : string) (n : nat)
| Info (msg : string)
| Success (msg : string)
| Warning (msg : string)
| MostWasted (top_item : value) (top_qty : Z)
| Options (labels : list string)
| Dataframe (df : DataFrame)
| BarChart (x : list value) (y : list Z)
| DownloadButton (file_name : string) (content : csv).

(** [st.selectbox(label, options)]: the chosen option, the first one when
    nothing else is chosen; [None] without options *)
Definition selectbox {A} (options : list A) (choice : nat) : option A :=
  match options !! choice with
  | Some x => Some x
  | None => head options
  end.

(** the greatest value of an integer [st.number_input] when [max_value] is
    not given *)
Definition number_input_max : Z := 2 ^ 53 - 1.

(** [st.number_input(label, min_value=1)]: the widget returns a value
    between its minimum and its maximum; a value outside is not accepted,
    and the widget returns its initial value, the minimum *)
Definition number_input (min_value raw : Z) : Z :=
  if (min_value <=? raw)%Z && (raw <=? number_input_max)%Z
  then raw else min_value.

Inductive page := Home | Inventory | Add | Waste | Analytics | Admin.

Global Instance page_eq_dec : EqDecision page.
Proof. solve_decision. Defined.

(** The widget values and the clock of one run.  A button is [true] when it
    reports a click; a selection is the position chosen among its options. *)
Record inputs := mkInputs {
  (* sidebar *)
  home_btn : bool; view_inv : bool; add_inv : bool;
  log_waste : bool; analytics : bool; admin : bool;
  (* Add Inventory *)
  item_name : string; quantity : Z; expiry_date : date; btn_add_item : bool;
  (* Log Waste *)
  select_item : nat; quantity_wasted : Z; reason : string;
  btn_log_waste : bool; entry_to_delete : nat; btn_del_waste : bool;
  (* Admin *)
  view_raw : bool; admin_delete : bool; delete_from : nat;
  index_choice : nat; btn_del_inv : bool; btn_del_admin_waste : bool;
  admin_reset : bool; btn_confirm_reset : bool; admin_download : bool;
  (* datetime.today() *)
  today : date
}.

(** the buttons of the script *)
Definition buttons (inp : inputs) : list bool :=
  [home_btn inp; view_inv inp; add_inv inp; log_waste inp; analytics inp;
   admin inp; btn_add_item inp; btn_log_waste inp; btn_del_waste inp;
   view_raw inp; admin_delete inp; btn_del_inv inp; btn_del_admin_waste inp;
   admin_reset inp; btn_confirm_reset inp; admin_download inp].

(** [st.button] returns True in the one run that a click on that button
    triggers, and False in every other run: in a run that a browser
    session triggers, at most one button reports a click.  In particular a
    button that is created inside the branch of another button never
    reports a click in a run that reaches the branch. *)
Definition browser_run (inp : inputs) : Prop :=
  (length (filter (fun b : bool => b = true) (buttons inp)) <= 1)%nat.

Global Instance browser_run_dec inp : Decision (browser_run inp).
Proof. unfold browser_run. apply _. Defined.

(** ** The state of a run and its monad *)

Record world := mkWorld {
  data_dir : bool;                   (* the directory data/ exists *)
  fs : gmap string csv;              (* the files under data/ *)
  session_state : option page;       (* st.session_state.active_page *)
  ns : gmap string DataFrame;        (* the DataFrame variables bound so far *)
  out : list ui                      (* what has been rendered, in order *)
}.

Definition M (A : Type) : Type := world -> result A * world.

Global Instance M_ret : MRet M := fun A a w => (Ok a, w).

Global Instance M_bind : MBind M := fun A B k m w =>
  match m w with
  | (Ok a, w') => k a w'
  | (Raise e, w') => (Raise e, w')
  | (Beyond, w') => (Beyond, w')
  end.

Definition raise {A} (e : exn) : M A := fun w => (Raise e, w).

Definition lift {A} (r : result A) : M A := fun w => (r, w).

Definition when (b : bool) (m : M unit) : M unit := if b then m else mret ().

(** the file at a path under data/, when there is one *)
Definition file (w : world) (path : string) : option csv :=
  if data_dir w then fs w !! path else None.

(** [os.path.exists(path)] *)
Definition path_exists (path : string) : M bool :=
  fun w => (Ok (bool_decide (is_Some (file w path))), w).

(** [pd.read_csv(path)] *)
Definition read_csv (path : string) : M DataFrame :=
  fun w => match file w path with
           | Some f => (parse_csv f, w)
           | None => (Raise (FileNotFoundError path), w)
           end.

(** [df.to_csv(path, index=False)]: the file is created or overwritten;
    without the directory the call raises OSError and writes nothing.  The
    process is taken to have the right to read and write in data/. *)
Definition to_csv (df : DataFrame) (path : string) : M unit :=
  fun w => if data_dir w
           then (Ok (), mkWorld true (<[path := render_csv df]> (fs w))
                          (session_state w) (ns w) (out w))
           else (Raise (OSError path), w).

(** [x = df] at the top level of the script *)
Definition assign (x : string) (df : DataFrame) : M unit :=
  fun w => (Ok (), mkWorld (data_dir w) (fs w) (session_state w)
                    (<[x := df]> (ns w)) (out w)).

(** a use of the variable [x]: a NameError when no assignment to it has
    run *)
Definition name (x : string) : M DataFrame :=
  fun w => match ns w !! x with
           | Some df => (Ok df, w)
           | None => (Raise (NameError x), w)
           end.

Definition emit (u : ui) : M unit :=
  fun w => (Ok (), mkWorld (data_dir w) (fs w) (session_state w) (ns w)
                    (out w ++ [u])%list).

Definition set_active_page (p : page) : M unit :=
  fun w => (Ok (), mkWorld (data_dir w) (fs w) (Some p) (ns w) (out w)).

Definition active_page : M page :=
  fun w => (Ok (default Home (session_state w)), w).

(** ** The script *)

Definition inventory_file : string := "data/inventory.csv".
Definition waste_log_file : string := "data/waste_log.csv".

Definition inventory_columns : list string :=
  ["Item"; "Quantity"; "Date Received"; "Expiry Date"].
Definition waste_columns : list string :=
  ["Item"; "Quantity Wasted"; "Reason"; "Waste Date"].

Definition init_data_files : M unit :=
  e ← path_exists inventory_file;
  when (negb e) (to_csv (DataFrame_columns inventory_columns) inventory_file);;
  e ← path_exists waste_log_file;
  when (negb e) (to_csv (DataFrame_columns waste_columns) waste_log_file).

Definition load_inventory : M DataFrame := read_csv inventory_file.
Definition load_waste_log : M DataFrame := read_csv waste_log_file.
Definition save_inventory (df : DataFrame) : M unit := to_csv df inventory_file.
Definition save_waste_log (df : DataFrame) : M unit := to_csv df waste_log_file.

(** lines 11-12 *)
Definition default_page : M unit :=
  fun w => match session_state w with
           | Some _ => (Ok (), w)
           | None => set_active_page Home w
           end.

(** lines 61-73 *)
Definition sidebar (inp : inputs) : M unit :=
  when (home_btn inp) (set_active_page Home);;
  when (view_inv inp) (set_active_page Inventory);;
  when (add_inv inp) (set_active_page Add);;
  when (log_waste inp) (set_active_page Waste);;
  when (analytics inp) (set_active_page Analytics);;
  when (admin inp) (set_active_page Admin).

(** lines 76-91 *)
Definition home_page : M unit :=
  df ← load_inventory; assign "inv_df" df;;
  df ← load_waste_log; assign "waste_df" df;;
  inv_df ← name "inv_df"; emit (Metric "Inventory Items" (len inv_df));;
  waste_df ← name "waste_df"; emit (Metric "Waste Records" (len waste_df));;
  waste_df ← name "waste_df";
  when (negb (empty waste_df)) (
    waste_df ← name "waste_df";
    s ← lift (groupby_sum "Item" "Quantity Wasted" waste_df);
    top_item ← lift (idxmax (sort_values_desc s));
    waste_df ← name "waste_df";
    s ← lift (groupby_sum "Item" "Quantity Wasted" waste_df);
    let top_qty := series_max s in
    q ← lift (int_ top_qty);
    emit (MostWasted top_item q)).

(** lines 93-95 *)
Definition inventory_page : M unit :=
  df ← load_inventory; emit (Dataframe df).

(** lines 97-109 *)
Definition add_page (inp : inputs) : M unit :=
  let item := item_name inp in
  let quantity := number_input 1 (quantity inp) in
  let expiry_date := expiry_date inp in
  when (btn_add_item inp) (
    assign "new_row"
      (DataFrame_row [VStr item; VInt quantity;
                      VStr (strftime_Ymd (today inp)); VDate expiry_date]
                     inventory_columns);;
    df ← load_inventory; assign "df" df;;
    df ← name "df"; new_row ← name "new_row";
    df' ← lift (concat df new_row); assign "df" df';;
    df ← name "df"; save_inventory df;;
    emit (Success "Item added to inventory.")).

(** [str] of a scalar, as an f-string shows it *)
Definition str_value (v : value) : string :=
  match v with
  | VNaN => "nan"
  | _ => render v
  end.

Global Instance result_ret : MRet result := fun A a => Ok a.
Global Instance result_bind : MBind result := fun A B k r =>
  match r with
  | Ok a => k a
  | Raise e => Raise e
  | Beyond => Beyond
  end.
Global Instance result_fmap : FMap result := fun A B f r =>
  match r with
  | Ok a => Ok (f a)
  | Raise e => Raise e
  | Beyond => Beyond
  end.

(** the [format_func] of line 134 *)
Definition entry_label (df : DataFrame) (x : nat) : result string :=
  it ← loc_cell x "Item" df;
  wd ← loc_cell x "Waste Date" df;
  mret (str_nat x +:+ " - " +:+ str_value it +:+ " (" +:+ str_value wd +:+ ")").

(** lines 113-128: the Log Waste form *)
Definition log_waste_form (inp : inputs) : M unit :=
  inv ← load_inventory;
  col ← lift (column "Item" inv);
  let items := unique col in
  if bool_decide (length items = 0) then emit (Info "Inventory empty.")
  else
    let item := default VNaN (selectbox items (select_item inp)) in
    let qty := number_input 1 (quantity_wasted inp) in
    let reason := reason inp in
    when (btn_log_waste inp) (
      df ← load_waste_log; assign "df" df;;
      assign "new_row"
        (DataFrame_row [item; VInt qty; VStr reason;
                        VStr (strftime_Ymd (today inp))]
                       waste_columns);;
      df ← name "df"; new_row ← name "new_row";
      df' ← lift (concat df new_row); assign "df" df';;
      df ← name "df"; save_waste_log df;;
      emit (Success "Waste logged.")).

(** lines 130-141: Delete Waste Entry *)
Definition delete_waste_entry (inp : inputs) : M unit :=
  df ← load_waste_log; assign "df" df;;
  df ← name "df";
  if negb (empty df) then
    df ← name "df";
    labels ← lift (mapM (entry_label df) (index df));
    emit (Options labels);;
    match selectbox (index df) (entry_to_delete inp) with
    | None => raise (KeyError "None")
    | Some i =>
        df ← name "df"; row ← lift (loc i df); emit (Dataframe row);;
        when (btn_del_waste inp) (
          df ← name "df"; df' ← lift (drop i df); assign "df" df';;
          df ← name "df"; save_waste_log df;;
          emit (Success "Deleted successfully."))
    end
  else emit (Info "No waste logs to delete.").

(** lines 111-141 *)
Definition waste_page (inp : inputs) : M unit :=
  log_waste_form inp;;
  delete_waste_entry inp.

(** lines 143-160 *)
Definition analytics_page : M unit :=
  df ← load_waste_log; assign "df" df;;
  df ← name "df";
  if empty df then emit (Info "No records.")
  else
    waste_df ← name "waste_df";
    chart_data ← lift (groupby_sum "Item" "Quantity Wasted" waste_df);
    emit (BarChart (map fst chart_data) (map snd chart_data));;
    df ← name "df"; emit (Dataframe df).

(** the two parallel delete paths of the Admin panel, lines 175-184 and
    186-195 *)
Definition admin_delete_from (load : M DataFrame) (save : DataFrame -> M unit)
    (choice : nat) (pressed : bool) (done_msg empty_msg : string) : M unit :=
  df ← load; assign "df" df;;
  df ← name "df";
  if negb (empty df) then
    df ← name "df";
    match selectbox (index df) choice with
    | None => raise (KeyError "None")
    | Some i =>
        df ← name "df"; row ← lift (loc i df); emit (Dataframe row);;
        when pressed (
          df ← name "df"; df' ← lift (drop i df); assign "df" df';;
          df ← name "df"; save df;;
          emit (Success done_msg))
    end
  else emit (Info empty_msg).

(** lines 162-208 *)
Definition admin_page (inp : inputs) : M unit :=
  when (view_raw inp) (
    df ← load_inventory; emit (Dataframe df);;
    df ← load_waste_log; emit (Dataframe df));;
  when (admin_delete inp) (
    let src :=
      default "" (selectbox ["Inventory"; "Waste Log"] (delete_from inp)) in
    if String.eqb src "Inventory" then
      admin_delete_from load_inventory save_inventory (index_choice inp)
        (btn_del_inv inp) "Deleted." "Inventory is empty."
    else
      admin_delete_from load_waste_log save_waste_log (index_choice inp)
        (btn_del_admin_waste inp) "Deleted." "Waste log is empty.");;
  when (admin_reset inp) (
    emit (Warning "Deletes ALL data.");;
    when (btn_confirm_reset inp) (
      save_inventory (DataFrame_columns inventory_columns);;
      save_waste_log (DataFrame_columns waste_columns);;
      emit (Success "All data cleared.")));;
  when (admin_download inp) (
    df ← load_inventory; assign "inv" df;;
    df ← load_waste_log; assign "waste" df;;
    inv ← name "inv";
    emit (DownloadButton "inventory.csv" (render_csv inv));;
    waste ← name "waste";
    emit (DownloadButton "waste_log.csv" (render_csv waste))).

(** lines 76-208: the branch of the active page *)
Definition page_body (inp : inputs) (p : page) : M unit :=
  match p with
  | Home => home_page
  | Inventory => inventory_page
  | Add => add_page inp
  | Waste => waste_page inp
  | Analytics => analytics_page
  | Admin => admin_page inp
  end.

(** one execution of new.py *)
Definition script (inp : inputs) : M unit :=
  default_page;;
  init_data_files;;
  sidebar inp;;
  p ← active_page;
  page_body inp p.

(** A run starts from the disk and the session's page, with no variable
    bound and nothing rendered.  [run inp files ss] is a run on a disk
    where the directory data/ exists and holds [files]. *)
Definition run (inp : inputs) (files : gmap string csv) (ss : option page)
  : result unit * world :=
  script inp (mkWorld true files ss ∅ []).

(** a run on a disk without the directory data/ *)
Definition run_without_data_dir (inp : inputs) (ss : option page)
  : result unit * world :=
  script inp (mkWorld false ∅ ss ∅ []).

(** ** Vocabulary of the statements *)

(** what [init_data_files] leaves in an existing directory data/: a missing
    table file is created with its header, an existing one is kept *)
Definition ensure (path : string) (cols : list string) (files : gmap string csv)
  : gmap string csv :=
  match files !! path with
  | Some _ => files
  | None => <[path := [cols]]> files
  end.

Definition init_files (files : gmap string csv) : gmap string csv :=
  ensure waste_log_file waste_columns
    (ensure inventory_file inventory_columns files).

(** the page that is active once the sidebar has run: the last pressed
    navigation button wins, otherwise the page of the session, [Home] in a
    new session *)
Definition landing (inp : inputs) (ss : option page) : page :=
  if admin inp then Admin
  else if analytics inp then Analytics
  else if log_waste inp then Waste
  else if add_inv inp then Add
  else if view_inv inp then Inventory
  else if home_btn inp then Home
  else default Home ss.

(** the files after a run, and its outcome *)
Definition files_after (r : result unit * world) : gmap string csv := fs r.2.
Definition outcome (r : result unit * world) : result unit := r.1.
Definition shown (r : result unit * world) : list ui := out r.2.

(** the table a file holds, as [read_csv] returns it *)
Definition table (files : gmap string csv) (path : string) : result DataFrame :=
  match files !! path with
  | Some f => parse_csv f
  | None => Raise (FileNotFoundError path)
  end.

(** every row has one cell per column *)
Definition rect (df : DataFrame) : Prop :=
  Forall (fun r => length r = length (columns df)) (data df).








(** How [to_csv] writes back a field that [read_csv] has read: as it is; or
    empty, when the field is one of the missing values; or in plain decimal
    form, when the field is an integer literal. *)
Definition written_back (s s' : string) : Prop :=
  s' = s
  ∨ (is_na s = true ∧ s' = "")
  ∨ (∃ z, parse_int64 s = Some z ∧ s' = str_int z).

(** a record of [w] fields, each the corresponding field of [r] written
    back *)
Definition record_written_back (w : nat) (r r' : list string) : Prop :=
  length r' = w ∧ ∀ j, j < w → written_back (field r j) (field r' j).

(** the three delete-by-position flows *)
Inductive delete_flow := WasteEntry | AdminInventory | AdminWaste.

Definition flow_file (fl : delete_flow) : string :=
  match fl with
  | AdminInventory => inventory_file
  | WasteEntry | AdminWaste => waste_log_file
  end.

Definition flow_choice (fl : delete_flow) (inp : inputs) : nat :=
  match fl with
  | WasteEntry => entry_to_delete inp
  | AdminInventory | AdminWaste => index_choice inp
  end.

(** the run reaches the confirm button of the flow, which reports a click,
    and no other action of the page is triggered *)
Definition confirmed (fl : delete_flow) (inp : inputs) (ss : option page) : Prop :=
  match fl with
  | WasteEntry =>
      landing inp ss = Waste ∧ btn_log_waste inp = false
      ∧ btn_del_waste inp = true
  | AdminInventory =>
      landing inp ss = Admin ∧ view_raw inp = false ∧ admin_delete inp = true
      ∧ delete_from inp = 0 ∧ btn_del_inv inp = true
      ∧ admin_reset inp = false ∧ admin_download inp = false
  | AdminWaste =>
      landing inp ss = Admin ∧ view_raw inp = false ∧ admin_delete inp = true
      ∧ delete_from inp = 1 ∧ btn_del_admin_waste inp = true
      ∧ admin_reset inp = false ∧ admin_download inp = false
  end.

(** what the Log Waste page needs before its delete section: the item list
    of the form above it, and the two columns of the entry labels *)
Definition flow_ready (fl : delete_flow) (files : gmap string csv)
    (df : DataFrame) : Prop :=
  match fl with
  | WasteEntry =>
      (∃ inv col, table files inventory_file = Ok inv
                  ∧ column "Item" inv = Ok col)
      ∧ "Item" ∈ columns df ∧ "Waste Date" ∈ columns df
  | AdminInventory | AdminWaste => True
  end.

(** the two tables and their load and save functions *)
Inductive table_id := InventoryTable | WasteLogTable.

Definition load (t : table_id) : M DataFrame :=
  match t with
  | InventoryTable => load_inventory
  | WasteLogTable => load_waste_log
  end.

Definition save (t : table_id) (df : DataFrame) : M unit :=
  match t with
  | InventoryTable => save_inventory df
  | WasteLogTable => save_waste_log df
  end.





(** computations that write no file *)
Definition readonly {A} (m : M A) : Prop := ∀ w, fs (m w).2 = fs w.

(** ** Sample data *)

Definition sample_inventory : csv :=
  [inventory_columns;
   ["Rice"; "10"; "2024-01-01"; "2024-06-01"];
   ["Beans"; "4"; "2024-01-05"; "2024-09-30"]].

Definition sample_waste_log : csv :=
  [waste_columns;
   ["Rice"; "5"; "expired"; "2024-02-01"];
   ["Beans"; "5"; "expired"; "2024-02-01"];
   ["Rice"; "2"; "damaged"; "2024-02-03"]].

Definition sample_files : gmap string csv :=
  <[inventory_file := sample_inventory]>
    (<[waste_log_file := sample_waste_log]> ∅).

(** a waste log whose only record has an empty Item field, as the Log Waste
    form writes it for an inventory item that was added without a name *)
Definition unnamed_waste_log : csv :=
  [waste_columns; [""; "2"; "spoiled"; "2024-03-15"]].

Definition unnamed_files : gmap string csv :=
  <[inventory_file := [inventory_columns; [""; "3"; "2024-03-15"; "2024-12-31"]]]>
    (<[waste_log_file := unnamed_waste_log]> ∅).

(** the inputs of a run in which the widgets with the keys [clicked] report
    a click and every selection is at position [choice] *)
Definition sample_inputs (clicked : list string) (choice : nat) : inputs :=
  let on k := bool_decide (k ∈ clicked) in
  {| home_btn := on "home_btn"; view_inv := on "view_inv";
     add_inv := on "add_inv"; log_waste := on "log_waste";
     analytics := on "analytics"; admin := on "admin";
     item_name := "Lentils"; quantity := 3;
     expiry_date := mkdate 2024 12 31; btn_add_item := on "btn_add_item";
     select_item := choice; quantity_wasted := 2; reason := "spoiled";
     btn_log_waste := on "btn_log_waste"; entry_to_delete := choice;
     btn_del_waste := on "btn_del_waste";
     view_raw := on "view_raw"; admin_delete := on "admin_delete";
     delete_from := if on "Waste Log" then 1 else 0;
     index_choice := choice; btn_del_inv := on "btn_del_inv";
     btn_del_admin_waste := on "btn_del_admin_waste";
     admin_reset := on "admin_reset";
     btn_confirm_reset := on "btn_confirm_reset";
     admin_download := on "admin_download";
     today := mkdate 2024 3 15 |}.

Definition sample_inventory_frame : DataFrame :=
  mkDF inventory_columns
    [(0, [VStr "Rice"; VInt 10; VStr "2024-01-01"; VStr "2024-06-01"]);
     (1, [VStr "Beans"; VInt 4; VStr "2024-01-05"; VStr "2024-09-30"])].

Definition sample_waste_frame : DataFrame :=
  mkDF waste_columns
    [(0, [VStr "Rice"; VInt 5; VStr "expired"; VStr "2024-02-01"]);
     (1, [VStr "Beans"; VInt 5; VStr "expired"; VStr "2024-02-01"]);
     (2, [VStr "Rice"; VInt 2; VStr "damaged"; VStr "2024-02-03"])].






(** the runs of the examples *)
Definition open_analytics : inputs := sample_inputs ["analytics"] 0.
Definition click_add_item : inputs := sample_inputs ["btn_add_item"] 0.
Definition click_del_inv : inputs :=
  sample_inputs ["admin_delete"; "btn_del_inv"] 0.
Definition click_reset_all : inputs := sample_inputs ["admin_reset"] 0.
Definition click_confirm_reset : inputs :=
  sample_inputs ["btn_confirm_reset"] 0.
Definition open_home : inputs := sample_inputs ["home_btn"] 0.

(** a session replayed from its first run: the outcomes of the runs, the
    files and the page at the end *)
Fixpoint replay (inps : list inputs) (files : gmap string csv)
    (ss : option page) : list (result unit) * gmap string csv * option page :=
  match inps with
  | [] => ([], files, ss)
  | inp :: inps' =>
      let r := run inp files ss in
      let '(os, files', ss') := replay inps' (fs r.2) (session_state r.2) in
      (r.1 :: os, files', ss')
  end.

(** the same run with the Item Name field left empty *)
Definition without_item_name (inp : inputs) : inputs :=
  mkInputs (home_btn inp) (view_inv inp) (add_inv inp) (log_waste inp)
    (analytics inp) (admin inp) "" (quantity inp) (expiry_date inp)
    (btn_add_item inp) (select_item inp) (quantity_wasted inp) (reason inp)
    (btn_log_waste inp) (entry_to_delete inp) (btn_del_waste inp)
    (view_raw inp) (admin_delete inp) (delete_from inp) (index_choice inp)
    (btn_del_inv inp) (btn_del_admin_waste inp) (admin_reset inp)
    (btn_confirm_reset inp) (admin_download inp) (today inp).

(** Add Inventory with an empty item name, Log Waste for that item, Home *)
Definition unnamed_item_session : list inputs :=
  [ sample_inputs ["add_inv"] 0;
    without_item_name (sample_inputs ["btn_add_item"] 0);
    sample_inputs ["log_waste"] 0;
    sample_inputs ["btn_log_waste"] 0;
    sample_inputs ["home_btn"] 0 ].

(** rows labelled from [k] on; [range_index] is the case [k = 0] *)
Definition labelled {A} (k : nat) (l : list A) : list (nat * A) :=
  imap (fun j r => (k + j, r)) l.

(** ** Vocabulary of the further properties *)

(** a computation that leaves an observation of the world as it was *)
Definition stable {T A} (obs : world → T) (m : M A) : Prop :=
  ∀ w, obs (m w).2 = obs w.

(** the files other than the two table files *)
Definition other_files (w : world) : gmap string csv :=
  delete inventory_file (delete waste_log_file (fs w)).

(** the files other than the inventory file, and other than the waste log *)
Definition but_inventory (w : world) : gmap string csv :=
  delete inventory_file (fs w).
Definition but_waste_log (w : world) : gmap string csv :=
  delete waste_log_file (fs w).

(** the table files a page may write *)
Definition own_files (p : page) : list string :=
  match p with
  | Home | Inventory | Analytics => []
  | Add => [inventory_file]
  | Waste => [waste_log_file]
  | Admin => [inventory_file; waste_log_file]
  end.

(** no button that triggers a write reports a click *)
Definition no_action (inp : inputs) : Prop :=
  btn_add_item inp = false ∧ btn_log_waste inp = false
  ∧ btn_del_waste inp = false ∧ btn_del_inv inp = false
  ∧ btn_del_admin_waste inp = false ∧ btn_confirm_reset inp = false.

(** no sidebar button reports a click *)
Definition no_navigation (inp : inputs) : Prop :=
  home_btn inp = false ∧ view_inv inp = false ∧ add_inv inp = false
  ∧ log_waste inp = false ∧ analytics inp = false ∧ admin inp = false.

Definition grows {A} (m : M A) : Prop := ∀ w, out w `prefix_of` out (m w).2.

Definition empty_message (fl : delete_flow) : string :=
  match fl with
  | WasteEntry => "No waste logs to delete."
  | AdminInventory => "Inventory is empty."
  | AdminWaste => "Waste log is empty."
  end.

(** the form above the delete section of the Log Waste page can be built *)
Definition form_ready (fl : delete_flow) (files : gmap string csv)
  : Prop :=
  match fl with
  | WasteEntry =>
      ∃ inv col, table files inventory_file = Ok inv ∧ column "Item" inv = Ok col
  | AdminInventory | AdminWaste => True
  end.

(** the exceptions that the content of a table file causes; any other
    exception is a fault of the script or of the disk *)
Definition data_error (e : exn) : bool :=
  match e with
  | KeyError _ | EmptyDataError | ParserError | ValueError => true
  | NameError _ | FileNotFoundError _ | OSError _ | TypeError
  | OverflowError => false
  end.

(** both table files exist *)
Definition present (files : gmap string csv) : Prop :=
  is_Some (files !! inventory_file) ∧ is_Some (files !! waste_log_file).

(** the directory data/ and both table files exist *)
Definition in_place (w : world) : Prop :=
  data_dir w = true ∧ present (fs w).

(** a computation that keeps the table files in place and raises data
    errors only, when it starts with both files in place *)
Definition sound {A} (m : M A) : Prop :=
  ∀ w, in_place w →
       in_place (m w).2 ∧ ∀ e, (m w).1 = Raise e → data_error e = true.

(** the runs of the statements below *)
Definition open_log_waste : inputs := sample_inputs ["log_waste"] 0.
Definition idle : inputs := sample_inputs [] 0.
Definition log_waste_on_empty : inputs :=
  sample_inputs ["log_waste"; "btn_log_waste"] 0.
Definition click_del_admin_waste : inputs :=
  sample_inputs ["admin_delete"; "Waste Log"; "btn_del_admin_waste"] 0.

(** an inventory file of zero bytes *)
Definition blank_inventory : gmap string csv :=
  <[inventory_file := []]> ∅.

Definition stray_confirm_clicks : inputs :=
  sample_inputs ["btn_del_inv"; "btn_del_admin_waste"; "btn_confirm_reset"] 0.

(** * Properties *)

(** ** Row labels *)

Lemma filter_all {A} (P : A → Prop) `{∀ x, Decision (P x)} (l : list A) :
  Forall P l → filter P l = l.
Proof.
  induction 1 as [|x l Hx _ IH]; [done|]. rewrite filter_cons_True by done.
  by rewrite IH.
Qed.

Lemma filter_none {A} (P : A → Prop) `{∀ x, Decision (P x)} (l : list A) :
  Forall (fun x => ¬ P x) l → filter P l = [].
Proof.
  induction 1 as [|x l Hx _ IH]; [done|]. by rewrite filter_cons_False.
Qed.

Section labels.

Context {A : Type}.
Implicit Types (l : list A) (k i : nat).

Lemma labelled_cons k (x : A) l :
  labelled k (x :: l) = (k, x) :: labelled (S k) l.
Proof.
  unfold labelled. rewrite imap_cons. f_equal; [f_equal; lia|].
  apply imap_ext. intros; simpl. f_equal. lia.
Qed.

Lemma labelled_snd k l : map snd (labelled k l) = l.
Proof.
  revert k. induction l as [|x l IH]; intros k; [done|].
  rewrite labelled_cons. simpl. by rewrite IH.
Qed.

Lemma labelled_fst k l : map fst (labelled k l) = seq k (length l).
Proof.
  revert k. induction l as [|x l IH]; intros k; [done|].
  rewrite labelled_cons. simpl. by rewrite IH.
Qed.

Lemma labelled_ge k l :
  Forall (fun r => (k <= r.1)%nat) (labelled k l).
Proof.
  revert k. induction l as [|x l IH]; intros k; [constructor|].
  rewrite labelled_cons. constructor; [simpl; lia|].
  eapply Forall_impl; [apply (IH (S k))|]. simpl. intros; lia.
Qed.

(** dropping the label [k + i] deletes position [i] *)
Lemma labelled_drop l k i :
  map snd (filter (fun r : nat * A => r.1 ≠ k + i) (labelled k l))
  = delete i l.
Proof.
  revert k i. induction l as [|x l IH]; intros k i; [done|].
  rewrite labelled_cons. destruct i as [|i].
  - rewrite filter_cons_False by (simpl; lia).
    rewrite filter_all; [apply labelled_snd|].
    eapply Forall_impl; [apply labelled_ge|]. simpl. intros; lia.
  - rewrite filter_cons_True by (simpl; lia). simpl. f_equal.
    replace (k + S i) with (S k + i) by lia. apply IH.
Qed.

(** selecting the label [k + i] selects position [i] *)
Lemma labelled_loc l k i x :
  l !! i = Some x →
  filter (fun r : nat * A => r.1 = k + i) (labelled k l) = [(k + i, x)].
Proof.
  revert k i. induction l as [|y l IH]; intros k i Hx; [done|].
  rewrite labelled_cons. destruct i as [|i]; simpl in Hx.
  - injection Hx as ->. rewrite filter_cons_True by (simpl; lia).
    rewrite filter_none; [by rewrite Nat.add_0_r|].
    eapply Forall_impl; [apply labelled_ge|]. simpl. intros; lia.
  - rewrite filter_cons_False by (simpl; lia).
    replace (k + S i) with (S k + i) by lia. by apply IH.
Qed.

End labels.

Lemma data_range_index rs : map snd (range_index rs) = rs.
Proof. apply (labelled_snd 0). Qed.

Lemma index_range_index rs : map fst (range_index rs) = seq 0 (length rs).
Proof. apply (labelled_fst 0). Qed.


(** ** Integers and CSV fields *)











Lemma length_convert_row kinds r : length (convert_row kinds r) = length kinds.
Proof. unfold convert_row. by rewrite length_imap. Qed.





Lemma existsb_map_in {A B} (f : B → bool) (g : A → B) (f' : A → bool)
    (l : list A) :
  (∀ x, In x l → f (g x) = f' x) →
  existsb f (map g l) = existsb f' l.
Proof.
  induction l as [|x l IH]; simpl; intros H; [done|].
  rewrite H by auto. f_equal. apply IH. auto.
Qed.

(** *** The type of a column *)

Lemma col_kind_Int64 recs j :
  col_kind recs j = Some Int64 →
  recs ≠ [] ∧ ∀ r, In r recs → is_int (field r j) = true.
Proof.
  unfold col_kind. case_bool_decide as Hnil; [done|].
  destruct (forallb is_int _) eqn:Hint.
  - intros _. split; [done|]. intros r Hr.
    rewrite forallb_forall in Hint. apply Hint, in_map_iff. eauto.
  - destruct (forallb is_na _); [done|]. by destruct (existsb texty _).
Qed.




Lemma col_kind_int recs j k :
  col_kind recs j = Some k → (k = Int64 → ∀ r, In r recs → is_int (field r j) = true).
Proof. intros Hk ->. by apply col_kind_Int64. Qed.


(** ** Frames read from a file *)


Lemma kinds_length recs w kinds :
  mapM (col_kind recs) (seq 0 w) = Some kinds → length kinds = w.
Proof. intros Hm. apply length_mapM in Hm. by rewrite length_seq in Hm. Qed.

Lemma header_ok_nonempty header : header_ok header = true → header ≠ [].
Proof. unfold header_ok. intros H. apply bool_decide_eq_true in H. tauto. Qed.

(** the files that [read_csv] reads without a parse error, an index or a
    renamed column *)
Lemma parse_csv_tokens header recs :
  header_ok header = true →
  one_chunk header recs = true →
  Forall (fun r => (0 < length r <= length header)%nat) recs →
  parse_csv (header :: recs)
  = match mapM (col_kind recs) (seq 0 (length header)) with
    | Some kinds =>
        Ok (mkDF header (range_index (map (convert_row kinds) recs)))
    | None => Beyond
    end.
Proof.
  intros Hh Hone Hrecs. unfold parse_csv. rewrite Hh, Hone. simpl.
  assert (H0 : existsb (fun r => (length r =? 0)%nat) recs = false).
  { apply not_true_is_false. intros H. apply existsb_exists in H as (r & Hin & H0).
    apply Nat.eqb_eq in H0. rewrite Forall_forall in Hrecs.
    apply list_elem_of_In, Hrecs in Hin. lia. }
  assert (H1 : existsb (fun r => (length header <? length r)%nat) recs = false).
  { apply not_true_is_false. intros H. apply existsb_exists in H as (r & Hin & Hlt).
    apply Nat.ltb_lt in Hlt. rewrite Forall_forall in Hrecs.
    apply list_elem_of_In, Hrecs in Hin. lia. }
  rewrite H0, H1. simpl.
  destruct recs as [|r1 recs]; [done|].
  apply Forall_cons in Hrecs as [Hr1 _].
  by rewrite (proj2 (Nat.ltb_ge _ _)) by lia.
Qed.

Lemma parse_csv_Ok f df :
  parse_csv f = Ok df →
  ∃ header recs kinds,
    f = header :: recs
    ∧ header_ok header = true
    ∧ Forall (fun r => (0 < length r <= length header)%nat) recs
    ∧ mapM (col_kind recs) (seq 0 (length header)) = Some kinds
    ∧ df = mkDF header (range_index (map (convert_row kinds) recs)).
Proof.
  destruct f as [|header recs]; [done|]. unfold parse_csv.
  destruct (header_ok header) eqn:Hh; [|done]. simpl.
  destruct (one_chunk header recs); [|done]. simpl.
  destruct (existsb (fun r => (length r =? 0)%nat) recs) eqn:H0; [done|]. simpl.
  destruct (match recs with
            | [] => false
            | r1 :: _ => (length header <? length r1)%nat
            end) eqn:Hfirst; [done|].
  destruct (existsb (fun r => (length header <? length r)%nat) recs) eqn:H1;
    [done|].
  destruct (mapM _ _) as [kinds|] eqn:Hk; [|done]. intros [= <-].
  exists header, recs, kinds. split_and!; try done.
  apply Forall_forall. intros r Hr. apply list_elem_of_In in Hr. split.
  - destruct (length r) eqn:Hl; [|lia].
    assert (existsb (fun r => (length r =? 0)%nat) recs = true); [|congruence].
    apply existsb_exists. exists r. split; [done|]. by rewrite Hl.
  - apply Nat.nlt_ge. intros Hlt.
    assert (existsb (fun r => (length header <? length r)%nat) recs = true);
      [|congruence].
    apply existsb_exists. exists r. split; [done|]. by apply Nat.ltb_lt.
Qed.



Lemma parse_csv_inv f df :
  parse_csv f = Ok df →
  ∃ recs, f = columns df :: recs
          ∧ rows df = range_index (data df)
          ∧ length (data df) = length recs
          ∧ rect df.
Proof.
  intros Hp.
  destruct (parse_csv_Ok f df Hp) as (header & recs & kinds & -> & _ & _ & Hk & ->).
  exists recs. unfold rect, data. cbn [columns rows]. rewrite data_range_index.
  split_and!; [done|done|by rewrite length_map|].
  apply Forall_forall. intros r Hr.
  apply list_elem_of_In, in_map_iff in Hr as (r0 & <- & _).
  rewrite length_convert_row. exact (kinds_length _ _ _ Hk).
Qed.

Lemma len_data df : len df = length (data df).
Proof. unfold len, data. by rewrite length_map. Qed.


Lemma frame_eta df :
  rows df = range_index (data df) → df = mkDF (columns df) (range_index (data df)).
Proof. intros H. destruct df; simpl in *. by f_equal. Qed.



Lemma parse_csv_len f df : parse_csv f = Ok df → len df = length (records f).
Proof.
  intros Hp. destruct (parse_csv_inv f df Hp) as (recs & -> & Hrows & Hlen & _).
  by rewrite len_data, Hlen.
Qed.

Lemma parse_csv_empty f df :
  parse_csv f = Ok df → empty df = bool_decide (records f = []).
Proof.
  intros Hp.
  destruct (parse_csv_Ok f df Hp) as (header & recs & kinds & -> & Hh & _ & _ & ->).
  apply header_ok_nonempty in Hh.
  simpl. destruct recs; simpl; [done|]. by destruct header.
Qed.

Lemma parse_header cols :
  header_ok cols = true → parse_csv [cols] = Ok (mkDF cols []).
Proof.
  intros Hh. rewrite parse_csv_tokens; [|done|done|done].
  assert (Hk : mapM (col_kind []) (seq 0 (length cols))
               = Some (replicate (length cols) Object)).
  { apply mapM_Some_2, Forall2_same_length_lookup_2.
    - by rewrite length_seq, length_replicate.
    - intros i x y Hx Hy. apply lookup_replicate in Hy as [-> _]. done. }
  by rewrite Hk.
Qed.

Lemma header_ok_inventory_columns : header_ok inventory_columns = true.
Proof. by vm_compute. Qed.

Lemma header_ok_waste_columns : header_ok waste_columns = true.
Proof. by vm_compute. Qed.

Lemma render_header cols : render_csv (mkDF cols []) = [cols].
Proof. reflexivity. Qed.


Lemma records_rect df :
  rect df →
  Forall (fun r => (length r <= length (columns df))%nat) (records (render_csv df)).
Proof.
  intros Hr. unfold render_csv, records. simpl. apply Forall_forall. intros r Hin.
  apply list_elem_of_In, in_map_iff in Hin as (r0 & <- & Hr0).
  rewrite length_map. unfold rect in Hr. rewrite Forall_forall in Hr.
  apply list_elem_of_In, Hr in Hr0. lia.
Qed.






(** ** concat, drop, loc and selections *)









Lemma drop_range cols rs i :
  i < length rs →
  ∃ df', drop i (mkDF cols (range_index rs)) = Ok df'
         ∧ columns df' = cols ∧ data df' = delete i rs.
Proof.
  intros Hi. unfold drop. simpl.
  rewrite bool_decide_true.
  2:{ unfold index. simpl. rewrite index_range_index. apply elem_of_seq. lia. }
  eexists. split_and!; [done|done|]. unfold data. simpl.
  apply (labelled_drop rs 0 i).
Qed.


Lemma loc_range cols rs i r :
  rs !! i = Some r →
  loc i (mkDF cols (range_index rs)) = Ok (mkDF cols [(i, r)]).
Proof.
  intros Hi. unfold loc. simpl.
  rewrite bool_decide_true.
  2:{ unfold index. simpl. rewrite index_range_index. apply elem_of_seq.
      apply lookup_lt_Some in Hi. lia. }
  f_equal. f_equal. apply (labelled_loc rs 0 i r Hi).
Qed.

Lemma selectbox_index cols rs i :
  i < length rs →
  selectbox (index (mkDF cols (range_index rs))) i = Some i.
Proof.
  intros Hi. unfold selectbox, index. simpl. rewrite index_range_index.
  by rewrite lookup_seq_lt.
Qed.

Lemma selectbox_valid df i :
  rows df = range_index (data df) → i < len df →
  selectbox (index df) i = Some i.
Proof.
  intros Hrows Hi. rewrite (frame_eta df Hrows).
  apply selectbox_index. by rewrite <- len_data.
Qed.


(** ** What is written back for the records of a file *)



(** a file that holds what [to_csv] writes for its table is written back
    as it is *)
Lemma written_back_refl w r : length r = w → record_written_back w r r.
Proof. intros Hl. split; [done|]. intros j _. by left. Qed.

(** ** The date format *)











(** ** The distinct values of a column *)

Lemma unique_elem l x : x ∈ unique l ↔ x ∈ l.
Proof.
  induction l as [|y l IH]; simpl; [done|].
  rewrite !elem_of_cons, list_elem_of_filter, IH. split.
  - intros [->|[_ H]]; auto.
  - intros [->|H]; [auto|]. destruct (decide (x = y)); [left|right]; done.
Qed.

Lemma unique_NoDup l : NoDup (unique l).
Proof.
  induction l as [|y l IH]; simpl; [constructor|].
  apply NoDup_cons. split.
  - rewrite list_elem_of_filter. by intros [H _].
  - by apply NoDup_filter.
Qed.

(** ** Running the script *)

Lemma bind_run {A B} (m : M A) (k : A → M B) w a w' :
  m w = (Ok a, w') → (m ≫= k) w = k a w'.
Proof. intros H. unfold mbind, M_bind. by rewrite H. Qed.

Lemma init_data_files_run w :
  data_dir w = true →
  init_data_files w
  = (Ok (), mkWorld true (init_files (fs w)) (session_state w) (ns w) (out w)).
Proof.
  destruct w as [dir files ss vars o]. simpl. intros ->.
  unfold init_data_files, init_files, ensure, mbind, M_bind, path_exists,
    when, to_csv, file, mret, M_ret. simpl.
  destruct (files !! inventory_file) eqn:Hi; simpl;
    rewrite ?lookup_insert_ne by done;
    destruct (files !! waste_log_file) eqn:Hw; simpl; done.
Qed.

Lemma init_data_files_no_dir w :
  data_dir w = false →
  init_data_files w = (Raise (OSError inventory_file), w).
Proof.
  destruct w as [dir files ss vars o]. simpl. intros ->.
  by unfold init_data_files, mbind, M_bind, path_exists, when, to_csv, file.
Qed.

Lemma ensure_lookup_Some path cols files p f :
  files !! p = Some f → ensure path cols files !! p = Some f.
Proof.
  intros Hp. unfold ensure. destruct (files !! path) eqn:Hpath; [done|].
  rewrite lookup_insert_ne; [done|]. intros ->. congruence.
Qed.

Lemma init_files_lookup_Some files p f :
  files !! p = Some f → init_files files !! p = Some f.
Proof. intros Hp. unfold init_files. by do 2 apply ensure_lookup_Some. Qed.

Lemma ensure_present path cols files : is_Some (ensure path cols files !! path).
Proof.
  unfold ensure. destruct (files !! path) eqn:Hp; [by rewrite Hp|].
  by rewrite lookup_insert_eq.
Qed.

Lemma ensure_fixed path cols files :
  is_Some (files !! path) → ensure path cols files = files.
Proof. intros [f Hf]. unfold ensure. by rewrite Hf. Qed.

Lemma init_files_present_inventory files :
  is_Some (init_files files !! inventory_file).
Proof.
  unfold init_files.
  destruct (ensure_present inventory_file inventory_columns files) as [f Hf].
  rewrite (ensure_lookup_Some _ _ _ _ _ Hf). eauto.
Qed.

Lemma init_files_present_waste files :
  is_Some (init_files files !! waste_log_file).
Proof. apply ensure_present. Qed.

Lemma init_files_present files : present (init_files files).
Proof. split; [apply init_files_present_inventory|apply init_files_present_waste]. Qed.

Lemma init_files_fixed files : present files → init_files files = files.
Proof.
  intros [Hi Hw]. unfold init_files.
  rewrite (ensure_fixed inventory_file) by done. by apply ensure_fixed.
Qed.

Lemma init_files_idem files : init_files (init_files files) = init_files files.
Proof. apply init_files_fixed, init_files_present. Qed.

Lemma table_Ok files p df :
  table files p = Ok df → ∃ f, files !! p = Some f ∧ parse_csv f = Ok df.
Proof. unfold table. destruct (files !! p) as [f|]; [eauto|done]. Qed.

Lemma table_lookup files p f :
  files !! p = Some f → table files p = parse_csv f.
Proof. intros H. unfold table. by rewrite H. Qed.

Lemma run_dispatch inp files ss :
  run inp files ss
  = page_body inp (landing inp ss)
      (mkWorld true (init_files files) (Some (landing inp ss)) ∅ []).
Proof.
  unfold run, script.
  unfold mbind at 1, M_bind at 1.
  assert (Hd : default_page (mkWorld true files ss ∅ [])
               = (Ok (), mkWorld true files (Some (default Home ss)) ∅ [])).
  { by destruct ss. }
  rewrite Hd. unfold mbind at 1, M_bind at 1.
  rewrite init_data_files_run by done.
  cbn [data_dir fs session_state ns out].
  unfold landing, sidebar, active_page, when.
  destruct ss, inp as [[] [] [] [] [] []]; reflexivity.
Qed.

(** without the directory data/ the script stops in [init_data_files], at
    the first write *)
Lemma run_without_data_dir_stops inp ss :
  run_without_data_dir inp ss
  = (Raise (OSError inventory_file),
     mkWorld false ∅ (Some (default Home ss)) ∅ []).
Proof.
  unfold run_without_data_dir, script.
  unfold mbind at 1, M_bind at 1.
  assert (Hd : default_page (mkWorld false ∅ ss ∅ [])
               = (Ok (), mkWorld false ∅ (Some (default Home ss)) ∅ [])).
  { by destruct ss. }
  rewrite Hd. unfold mbind at 1, M_bind at 1.
  by rewrite init_data_files_no_dir.
Qed.

Ltac step :=
  unfold mbind, M_bind, mret, M_ret, assign, name, emit, lift, raise, when,
    load_inventory, load_waste_log, save_inventory, save_waste_log,
    read_csv, to_csv, file;
  repeat first
    [ progress cbn [data_dir fs session_state ns out fst snd negb]
    | rewrite lookup_insert_eq
    | rewrite lookup_insert_ne by done ].

(** ** Initialization *)

(** C8, as the code behaves.  In a directory data/ that exists,
    [init_data_files] ends well; afterwards each of the two table files
    holds what it held before when it existed, and the header of its table
    alone when it was missing; no other file is touched; a file with the
    header alone loads as a table without rows.  Without the directory the
    first write raises OSError, and nothing is created: the script has no
    call that makes the directory. *)
Theorem init_creates_missing_keeps_existing w :
  (data_dir w = true →
   ∃ w', init_data_files w = (Ok (), w')
     ∧ data_dir w' = true
     ∧ fs w' !! inventory_file
       = Some (default [inventory_columns] (fs w !! inventory_file))
     ∧ fs w' !! waste_log_file
       = Some (default [waste_columns] (fs w !! waste_log_file))
     ∧ (∀ path, path ≠ inventory_file → path ≠ waste_log_file →
                fs w' !! path = fs w !! path)
     ∧ parse_csv [inventory_columns] = Ok (mkDF inventory_columns [])
     ∧ parse_csv [waste_columns] = Ok (mkDF waste_columns []))
  ∧ (data_dir w = false →
     init_data_files w = (Raise (OSError inventory_file), w)).
Proof.
  split; [|apply init_data_files_no_dir].
  intros Hd. eexists. split; [by apply init_data_files_run|]. cbn [fs data_dir].
  split; [done|].
  unfold init_files, ensure.
  destruct (fs w !! inventory_file) eqn:Hi; simpl;
    rewrite ?lookup_insert_ne by done;
    destruct (fs w !! waste_log_file) eqn:Hw; simpl;
    rewrite ?lookup_insert_eq, ?Hi, ?Hw;
    split_and!; try done;
    try (intros path H1 H2; by rewrite ?lookup_insert_ne by done).
  all: rewrite lookup_insert_ne by done; by rewrite ?lookup_insert_eq, ?Hi.
Qed.

(** ** Load and save *)


(** ** Add Inventory *)




(** ** Log Waste and the delete flows *)

Ltac concrete w Hd :=
  let dir := fresh "dir" in
  destruct w as [dir ? ? ? ?]; cbn [data_dir fs session_state ns out] in *;
  subst dir.

Lemma mapM_result_ok {A B} (f : A → result B) (l : list A) :
  Forall (fun x => ∃ y, f x = Ok y) l → ∃ ys, mapM f l = Ok ys.
Proof.
  induction 1 as [|x l [y Hy] _ [ys IH]]; [by eexists|].
  simpl. rewrite Hy. simpl. rewrite IH. simpl. by eexists.
Qed.

Lemma loc_cell_ok df x c :
  c ∈ columns df → x ∈ index df → ∃ v, loc_cell x c df = Ok v.
Proof.
  intros Hc Hx. unfold loc_cell.
  assert (∃ j, col_pos c (columns df) = Some j) as [j ->].
  { induction (columns df) as [|c0 cols IH]; [by apply elem_of_nil in Hc|].
    simpl. destruct (decide (c0 = c)); [by eexists|].
    apply elem_of_cons in Hc as [->|Hc]; [done|].
    destruct (IH Hc) as [j ->]. by eexists. }
  unfold index in Hx. apply list_elem_of_In, in_map_iff in Hx as (r & Hr1 & Hr).
  destruct (list_find_elem_of (fun r0 : nat * list value => r0.1 = x) (rows df) r)
    as [[k r'] ->]; [by apply list_elem_of_In|done|].
  by eexists.
Qed.

Lemma entry_labels_ok df :
  "Item" ∈ columns df → "Waste Date" ∈ columns df →
  ∃ labels, mapM (entry_label df) (index df) = Ok labels.
Proof.
  intros Hi Hw. apply mapM_result_ok, Forall_forall. intros x Hx.
  unfold entry_label.
  destruct (loc_cell_ok df x "Item" Hi Hx) as [v ->].
  destruct (loc_cell_ok df x "Waste Date" Hw Hx) as [v' ->].
  simpl. by eexists.
Qed.

Lemma delete_waste_entry_run inp w f df i r :
  data_dir w = true →
  fs w !! waste_log_file = Some f →
  parse_csv f = Ok df →
  empty df = false →
  "Item" ∈ columns df → "Waste Date" ∈ columns df →
  selectbox (index df) (entry_to_delete inp) = Some i →
  data df !! i = Some r →
  ∃ vars labels df',
    columns df' = columns df ∧ data df' = delete i (data df) ∧
    delete_waste_entry inp w
    = (Ok (),
       mkWorld true (if btn_del_waste inp
                then <[waste_log_file := render_csv df']> (fs w) else fs w)
               (session_state w) vars
               (out w ++ [Options labels; Dataframe (mkDF (columns df) [(i, r)])]
                  ++ (if btn_del_waste inp then [Success "Deleted successfully."] else []))).
Proof.
  intros Hd Hf Hp He Hci Hcw Hsel Hr. concrete w Hd.
  destruct (parse_csv_inv f df Hp) as (recs & -> & Hrows & Hlen & Hrect).
  destruct (entry_labels_ok df Hci Hcw) as [labels Hlab].
  pose proof (frame_eta df Hrows) as Hdf.
  destruct (drop_range (columns df) (data df) i) as (df' & Hdrop & Hc' & Hd').
  { by eapply lookup_lt_Some. }
  rewrite <- Hdf in Hdrop.
  pose proof (loc_range (columns df) (data df) i r Hr) as Hloc. rewrite <- Hdf in Hloc.
  eexists (if btn_del_waste inp
           then <["df" := df']> (<["df" := df]> _)
           else <["df" := df]> _).
  exists labels, df'. split_and!; [done|done|].
  unfold delete_waste_entry. step. rewrite Hf, Hp. step. rewrite He. step.
  rewrite Hlab. step. rewrite Hsel. step. rewrite Hloc. step.
  destruct (btn_del_waste inp); step.
  - rewrite Hdrop. step. rewrite <- !app_assoc. done.
  - rewrite app_nil_r. rewrite <- !app_assoc. done.
Qed.

Lemma admin_delete_from_run path choice pressed done_msg empty_msg w f df i r :
  data_dir w = true →
  fs w !! path = Some f →
  parse_csv f = Ok df →
  empty df = false →
  selectbox (index df) choice = Some i →
  data df !! i = Some r →
  ∃ vars df',
    columns df' = columns df ∧ data df' = delete i (data df) ∧
    admin_delete_from (read_csv path) (fun d => to_csv d path)
                      choice pressed done_msg empty_msg w
    = (Ok (),
       mkWorld true (if pressed then <[path := render_csv df']> (fs w) else fs w)
               (session_state w) vars
               (out w ++ [Dataframe (mkDF (columns df) [(i, r)])]
                  ++ (if pressed then [Success done_msg] else []))).
Proof.
  intros Hd Hf Hp He Hsel Hr. concrete w Hd.
  destruct (parse_csv_inv f df Hp) as (recs & -> & Hrows & Hlen & Hrect).
  pose proof (frame_eta df Hrows) as Hdf.
  destruct (drop_range (columns df) (data df) i) as (df' & Hdrop & Hc' & Hd').
  { by eapply lookup_lt_Some. }
  rewrite <- Hdf in Hdrop.
  pose proof (loc_range (columns df) (data df) i r Hr) as Hloc. rewrite <- Hdf in Hloc.
  eexists (if pressed
           then <["df" := df']> (<["df" := df]> _)
           else <["df" := df]> _).
  exists df'. split_and!; [done|done|].
  unfold admin_delete_from. step. rewrite Hf, Hp. step. rewrite He. step.
  rewrite Hsel. step. rewrite Hloc. step.
  destruct pressed; step.
  - rewrite Hdrop. step. rewrite <- !app_assoc. done.
  - rewrite app_nil_r. done.
Qed.

Lemma log_waste_form_idle inp w f inv col :
  btn_log_waste inp = false →
  data_dir w = true →
  fs w !! inventory_file = Some f →
  parse_csv f = Ok inv →
  column "Item" inv = Ok col →
  ∃ o, log_waste_form inp w
       = (Ok (), mkWorld true (fs w) (session_state w) (ns w) (out w ++ o)).
Proof.
  intros Hb Hd Hf Hp Hc. concrete w Hd.
  unfold log_waste_form. step. rewrite Hf, Hp. step.
  rewrite Hc. step. rewrite Hb. case_bool_decide; step.
  - by eexists [_].
  - exists []. by rewrite app_nil_r.
Qed.


Lemma admin_page_delete inp w :
  view_raw inp = false → admin_delete inp = true →
  admin_reset inp = false → admin_download inp = false →
  admin_page inp w
  = (if decide (delete_from inp = 1)
     then admin_delete_from (read_csv waste_log_file)
            (fun d => to_csv d waste_log_file) (index_choice inp)
            (btn_del_admin_waste inp) "Deleted." "Waste log is empty."
     else admin_delete_from (read_csv inventory_file)
            (fun d => to_csv d inventory_file) (index_choice inp)
            (btn_del_inv inp) "Deleted." "Inventory is empty.") w.
Proof.
  intros Hv Hd Hr Hdl. unfold admin_page. rewrite Hv, Hd, Hr, Hdl.
  unfold when at 1 3 4.
  assert (Hl : ∀ (m : M unit), (mret ();; m) = m) by done.
  rewrite Hl. unfold mbind at 1, M_bind at 1.
  unfold when.
  match goal with |- (let (r, w') := ?m w in _) = _ =>
    assert (Hm : m = (if decide (delete_from inp = 1)
     then admin_delete_from (read_csv waste_log_file)
            (fun d => to_csv d waste_log_file) (index_choice inp)
            (btn_del_admin_waste inp) "Deleted." "Waste log is empty."
     else admin_delete_from (read_csv inventory_file)
            (fun d => to_csv d inventory_file) (index_choice inp)
            (btn_del_inv inp) "Deleted." "Inventory is empty.")) end.
  { destruct (delete_from inp) as [|[|n]]; simpl; try done. }
  rewrite Hm. clear Hm.
  match goal with
  | |- (let (r, w') := ?m w in _) = _ => destruct (m w) as [[[]|e|] w']
  end; done.
Qed.
(** the common content of the delete flows *)
Lemma delete_flow_run fl inp files ss df :
  confirmed fl inp ss →
  table files (flow_file fl) = Ok df →
  empty df = false →
  flow_ready fl files df →
  flow_choice fl inp < len df →
  let i := flow_choice fl inp in
  let r := run inp files ss in
  ∃ row df',
    data df !! i = Some row
    ∧ outcome r = Ok ()
    ∧ Dataframe (mkDF (columns df) [(i, row)]) ∈ shown r
    ∧ files_after r = <[flow_file fl := render_csv df']> (init_files files)
    ∧ columns df' = columns df
    ∧ data df' = delete i (data df).
Proof.
  intros Hconf Ht He Hready Hi i r.
  destruct (table_Ok _ _ _ Ht) as (f & Hf & Hp).
  destruct (parse_csv_inv f df Hp) as (recs & _ & Hrows & _ & _).
  destruct (lookup_lt_is_Some_2 (data df) i) as [row Hrow].
  { by rewrite <- len_data. }
  pose proof (selectbox_valid df i Hrows Hi) as Hsel.
  pose proof (init_files_lookup_Some _ _ _ Hf) as Hf'.
  exists row. subst r. rewrite run_dispatch.
  destruct fl; simpl in Hconf, Hready, Hf', Ht.
  - destruct Hconf as (Hpage & Hlog & Hdel).
    destruct Hready as ((inv & col & Hti & Hcol) & Hci & Hcw).
    destruct (table_Ok _ _ _ Hti) as (fi & Hfi & Hpi).
    rewrite Hpage. simpl page_body. unfold waste_page.
    destruct (log_waste_form_idle inp (mkWorld true (init_files files) (Some Waste) ∅ [])
                fi inv col Hlog eq_refl (init_files_lookup_Some _ _ _ Hfi) Hpi Hcol)
      as (o & Hidle).
    rewrite (bind_run _ _ _ _ _ Hidle).
    cbn [fs session_state ns out].
    destruct (delete_waste_entry_run inp
                (mkWorld true (init_files files) (Some Waste) ∅ ([] ++ o)) f df i row
                eq_refl Hf' Hp He Hci Hcw Hsel Hrow)
      as (vars & labels & df' & Hc' & Hd' & ->).
    exists df'. rewrite Hdel. unfold outcome, shown, files_after. simpl.
    split_and!; try done.
    rewrite ?elem_of_app, ?elem_of_cons. auto 10.
  - destruct Hconf as (Hpage & Hv & Had & Hfrom & Hdel & Hreset & Hdl).
    rewrite Hpage. simpl page_body.
    rewrite admin_page_delete by done. rewrite Hfrom. simpl.
    destruct (admin_delete_from_run inventory_file (index_choice inp)
                (btn_del_inv inp) "Deleted." "Inventory is empty."
                (mkWorld true (init_files files) (Some Admin) ∅ []) f df i row
                eq_refl Hf' Hp He Hsel Hrow)
      as (vars & df' & Hc' & Hd' & ->).
    exists df'. rewrite Hdel. unfold outcome, shown, files_after. simpl.
    split_and!; try done.
    rewrite ?elem_of_app, ?elem_of_cons. auto 10.
  - destruct Hconf as (Hpage & Hv & Had & Hfrom & Hdel & Hreset & Hdl).
    rewrite Hpage. simpl page_body.
    rewrite admin_page_delete by done. rewrite Hfrom. simpl.
    destruct (admin_delete_from_run waste_log_file (index_choice inp)
                (btn_del_admin_waste inp) "Deleted." "Waste log is empty."
                (mkWorld true (init_files files) (Some Admin) ∅ []) f df i row
                eq_refl Hf' Hp He Hsel Hrow)
      as (vars & df' & Hc' & Hd' & ->).
    exists df'. rewrite Hdel. unfold outcome, shown, files_after. simpl.
    split_and!; try done.
    rewrite ?elem_of_app, ?elem_of_cons. auto 10.
Qed.

(** *** Log Waste *)


(** *** Delete Waste Entry *)


(** *** Delete Inventory in the Admin panel *)

(** C9.  Deleting a row of the inventory in the Admin panel leaves the waste
    log file as it was, whatever its records say, so also when they name
    the item of the deleted row. *)
Theorem inventory_delete_keeps_waste_log inp files ss df g :
  confirmed AdminInventory inp ss →
  table files inventory_file = Ok df →
  empty df = false →
  (index_choice inp < len df)%nat →
  files !! waste_log_file = Some g →
  let r := run inp files ss in
  outcome r = Ok ()
  ∧ (∃ df', files_after r !! inventory_file = Some (render_csv df')
            ∧ data df' = delete (index_choice inp) (data df))
  ∧ files_after r !! waste_log_file = Some g
  ∧ table (files_after r) waste_log_file = table files waste_log_file.
Proof.
  intros Hconf Ht He Hi Hg r.
  destruct (delete_flow_run AdminInventory inp files ss df Hconf Ht He I Hi)
    as (row & df' & Hrow & Hout & _ & Hfiles & _ & Hdata).
  subst r. rewrite Hfiles. simpl flow_file. unfold table.
  rewrite lookup_insert_eq, lookup_insert_ne by done.
  rewrite (init_files_lookup_Some _ _ _ Hg), Hg.
  split_and!; try done. by exists df'.
Qed.

(** ** The buttons of a browser run *)

Lemma one_true (l : list bool) i j :
  (length (filter (fun b : bool => b = true) l) <= 1)%nat →
  l !! i = Some true → l !! j = Some true → i = j.
Proof.
  revert i j. induction l as [|b l IH]; intros i j Hn Hi Hj; [done|].
  rewrite filter_cons in Hn. destruct b.
  - rewrite decide_True in Hn by done. simpl in Hn.
    assert (Hnone : ∀ k, l !! k ≠ Some true).
    { intros k Hk. apply list_elem_of_lookup_2 in Hk.
      assert (Hin : true ∈ filter (fun b : bool => b = true) l)
        by (by apply list_elem_of_filter).
      destruct (filter _ l); [by apply elem_of_nil in Hin|simpl in Hn; lia]. }
    destruct i as [|i], j as [|j]; simpl in *; try done.
    + by destruct (Hnone j).
    + by destruct (Hnone i).
    + by destruct (Hnone i).
  - rewrite decide_False in Hn by done.
    destruct i as [|i], j as [|j]; simpl in *; try done.
    f_equal. by apply IH.
Qed.

Lemma browser_run_one inp i j :
  browser_run inp →
  buttons inp !! i = Some true → buttons inp !! j = Some true → i = j.
Proof. apply one_true. Qed.

(** in the run that a click on button [i] triggers, button [j] reports no
    click *)
Lemma browser_run_other inp i j b :
  browser_run inp → buttons inp !! i = Some true → i ≠ j →
  buttons inp !! j = Some b → b = false.
Proof.
  intros Hrun Hi Hne Hj. destruct b; [|done].
  by destruct (Hne (browser_run_one inp i j Hrun Hi Hj)).
Qed.

(** ** Analytics *)

(** C1, as the code behaves.  In the Analytics view, when the loaded waste
    log is not empty, the run stops with a NameError for [waste_df] and
    renders nothing: the branch binds the loaded table to [df], and
    [waste_df] is bound by no statement of this run.  No chart is computed
    from the loaded table. *)
Theorem analytics_reads_unbound_variable inp files ss df :
  landing inp ss = Analytics →
  table files waste_log_file = Ok df →
  empty df = false →
  let r := run inp files ss in
  outcome r = Raise (NameError "waste_df")
  ∧ shown r = []
  ∧ ns r.2 !! "df" = Some df
  ∧ ns r.2 !! "waste_df" = None.
Proof.
  intros Hpage Ht He r. subst r.
  destruct (table_Ok _ _ _ Ht) as (f & Hf & Hp).
  rewrite run_dispatch, Hpage. simpl page_body. unfold analytics_page.
  step. rewrite (init_files_lookup_Some _ _ _ Hf), Hp. step. rewrite He. step.
  rewrite lookup_empty. unfold outcome, shown. simpl.
  by rewrite lookup_insert_eq, lookup_insert_ne, lookup_empty.
Qed.

(** ** Sorting and the greatest entry *)

Lemma insert_by_perm {A} (leb : A → A → bool) x l :
  insert_by leb x l ≡ₚ x :: l.
Proof.
  induction l as [|y l IH]; simpl; [done|].
  destruct (leb x y); [done|]. rewrite IH. apply Permutation_swap.
Qed.

Lemma sort_by_perm {A} (leb : A → A → bool) l : sort_by leb l ≡ₚ l.
Proof.
  induction l as [|x l IH]; simpl; [done|].
  unfold sort_by in *. simpl. rewrite insert_by_perm. by rewrite IH.
Qed.

Lemma argmax_elem best s : argmax best s ∈ best :: s.
Proof.
  revert best. induction s as [|p s IH]; intros best; simpl;
    [apply list_elem_of_here|].
  destruct (best.2 <? p.2)%Z.
  - apply list_elem_of_further, IH.
  - specialize (IH best). apply elem_of_cons in IH as [->|IH].
    + apply list_elem_of_here.
    + by do 2 apply list_elem_of_further.
Qed.

Lemma argmax_ge best s : (best.2 <= (argmax best s).2)%Z.
Proof.
  revert best. induction s as [|p s IH]; intros best; simpl; [lia|].
  destruct (Z.ltb_spec best.2 p.2).
  - specialize (IH p). lia.
  - apply IH.
Qed.

Lemma argmax_max best s x :
  x ∈ best :: s → (x.2 <= (argmax best s).2)%Z.
Proof.
  revert best. induction s as [|p s IH]; intros best Hx; simpl.
  - apply list_elem_of_singleton in Hx as ->. lia.
  - destruct (Z.ltb_spec best.2 p.2) as [Hlt|Hge].
    + apply elem_of_cons in Hx as [->|Hx].
      * pose proof (argmax_ge p s). lia.
      * by apply IH.
    + apply elem_of_cons in Hx as [->|Hx].
      * apply argmax_ge.
      * apply elem_of_cons in Hx as [->|Hx].
        -- pose proof (argmax_ge best s). lia.
        -- apply IH. by apply list_elem_of_further.
Qed.

(** the entry that [idxmax] and [max] pick *)
Lemma greatest_entry (s s' : Series) :
  s ≠ [] → s' ≡ₚ s →
  ∃ k q, idxmax s' = Ok k ∧ series_max s = VInt q
         ∧ (k, q) ∈ s ∧ ∀ k' q', (k', q') ∈ s → (q' <= q)%Z.
Proof.
  intros Hs Hperm.
  destruct s as [|p s0]; [done|].
  destruct s' as [|p' s0']; [by apply Permutation_nil_cons in Hperm|].
  simpl.
  pose proof (argmax_elem p s0) as He. pose proof (argmax_elem p' s0') as He'.
  rewrite Hperm in He'.
  assert (Heq : (argmax p' s0').2 = (argmax p s0).2).
  { apply Z.le_antisymm.
    - by apply (argmax_max p s0).
    - apply (argmax_max p' s0'). by rewrite Hperm. }
  exists (argmax p' s0').1, (argmax p s0).2. split_and!; [done|done| |].
  - rewrite <- Heq. by destruct (argmax p' s0').
  - intros k' q' Hin. by apply (argmax_max p s0 (k', q')).
Qed.

(** ** The groups of [groupby_sum] *)

Lemma wrap64_range z : (int64_min <= wrap64 z <= int64_max)%Z.
Proof.
  unfold wrap64, int64_min, int64_max.
  pose proof (Z.mod_pos_bound (z + 2 ^ 63) (2 ^ 64)). lia.
Qed.

Lemma wrap64_small z : (int64_min <= z <= int64_max)%Z → wrap64 z = z.
Proof.
  unfold wrap64, int64_min, int64_max. intros Hz.
  rewrite Z.mod_small; lia.
Qed.

Lemma groupby_sum_groups by_ col df keys cells vals :
  column by_ df = Ok keys →
  column col df = Ok cells →
  mapM as_int cells = Some vals →
  ∃ s, groupby_sum by_ col df = Ok s
       ∧ NoDup (map fst s)
       ∧ (∀ k, k ∈ map fst s ↔ k ∈ keys ∧ k ≠ VNaN)
       ∧ (∀ k q, (k, q) ∈ s → q = wrap64 (sum_of k keys vals)).
Proof.
  intros Hk Hc Hv. unfold groupby_sum. rewrite Hk, Hc, Hv.
  eexists. split; [done|].
  set (ks := sort_by value_leb (unique (filter (fun k => k ≠ VNaN) keys))).
  assert (Hperm : ks ≡ₚ unique (filter (fun k => k ≠ VNaN) keys))
    by apply sort_by_perm.
  rewrite map_map. simpl. rewrite map_id.
  split_and!.
  - rewrite Hperm. apply unique_NoDup.
  - intros k. rewrite Hperm, unique_elem, list_elem_of_filter. tauto.
  - intros k q Hin. apply list_elem_of_In, in_map_iff in Hin as (k0 & [= -> ->] & _).
    done.
Qed.

(** ** The Home page *)

Lemma home_page_run w fi inv f df s :
  data_dir w = true →
  fs w !! inventory_file = Some fi → parse_csv fi = Ok inv →
  fs w !! waste_log_file = Some f → parse_csv f = Ok df →
  empty df = false →
  groupby_sum "Item" "Quantity Wasted" df = Ok s →
  let metrics := [Metric "Inventory Items" (len inv);
                  Metric "Waste Records" (len df)] in
  let vars := <["waste_df" := df]> (<["inv_df" := inv]> (ns w)) in
  home_page w
  = match idxmax (sort_values_desc s) with
    | Raise e =>
        (Raise e, mkWorld true (fs w) (session_state w) vars (out w ++ metrics))
    | Beyond =>
        (Beyond, mkWorld true (fs w) (session_state w) vars (out w ++ metrics))
    | Ok k =>
        match int_ (series_max s) with
        | Raise e =>
            (Raise e, mkWorld true (fs w) (session_state w) vars (out w ++ metrics))
        | Beyond =>
            (Beyond, mkWorld true (fs w) (session_state w) vars (out w ++ metrics))
        | Ok q =>
            (Ok (), mkWorld true (fs w) (session_state w) vars
                      (out w ++ metrics ++ [MostWasted k q]))
        end
    end.
Proof.
  intros Hd Hfi Hpi Hf Hp He Hs metrics vars. concrete w Hd.
  unfold home_page. step.
  rewrite Hfi, Hpi. step. rewrite Hf, Hp. step. rewrite He. step. rewrite Hs.
  step. subst metrics vars.
  destruct (idxmax (sort_values_desc s)) as [k|e|]; step;
    [|by rewrite <- app_assoc|by rewrite <- app_assoc].
  destruct (int_ (series_max s)) as [q|e|]; step; by rewrite <- !app_assoc.
Qed.

(** C7, as the code behaves.  In the Home view, when the waste log is not
    empty but no row has an item (every Item field reads as a missing
    value), the two counts are shown and the run stops with a ValueError:
    the grouping drops the missing keys, and [idxmax] of the empty result
    raises.  No most-wasted item is reported. *)
Theorem home_crashes_when_items_missing inp files ss inv df keys cells vals :
  landing inp ss = Home →
  table files inventory_file = Ok inv →
  table files waste_log_file = Ok df →
  empty df = false →
  column "Item" df = Ok keys →
  Forall (fun k => k = VNaN) keys →
  column "Quantity Wasted" df = Ok cells →
  mapM as_int cells = Some vals →
  let r := run inp files ss in
  outcome r = Raise ValueError
  ∧ shown r = [Metric "Inventory Items" (len inv);
               Metric "Waste Records" (len df)].
Proof.
  intros Hpage Hti Ht He Hk Hnan Hc Hv r. subst r.
  destruct (table_Ok _ _ _ Hti) as (fi & Hfi & Hpi).
  destruct (table_Ok _ _ _ Ht) as (f & Hf & Hp).
  assert (Hs : groupby_sum "Item" "Quantity Wasted" df = Ok []).
  { unfold groupby_sum. rewrite Hk, Hc, Hv. rewrite filter_none; [done|].
    eapply Forall_impl; [exact Hnan|]. by intros k -> ?. }
  rewrite run_dispatch, Hpage. simpl page_body.
  rewrite (home_page_run (mkWorld true (init_files files) (Some Home) ∅ [])
             fi inv f df [] eq_refl (init_files_lookup_Some _ _ _ Hfi) Hpi
             (init_files_lookup_Some _ _ _ Hf) Hp He Hs).
  done.
Qed.

(** X1.  Home, when some row of the waste log names an item and the
    quantities are an integer column: the run ends well and shows the two
    counts and one most-wasted line.  The reported item is a named item of
    the log; the reported quantity is the int64 sum of its rows, which
    wraps around when it leaves the int64 range; no named item has a
    greater int64 sum.  When no sum leaves the range, the quantity is the
    sum of the rows of the item and no named item has a greater sum. *)
Theorem home_reports_greatest_named_item inp files ss inv df keys cells vals k0 :
  landing inp ss = Home →
  table files inventory_file = Ok inv →
  table files waste_log_file = Ok df →
  empty df = false →
  column "Item" df = Ok keys →
  k0 ∈ keys → k0 ≠ VNaN →
  column "Quantity Wasted" df = Ok cells →
  mapM as_int cells = Some vals →
  let r := run inp files ss in
  ∃ k q,
    outcome r = Ok ()
    ∧ shown r = [Metric "Inventory Items" (len inv);
                 Metric "Waste Records" (len df); MostWasted k q]
    ∧ k ∈ keys ∧ k ≠ VNaN
    ∧ q = wrap64 (sum_of k keys vals)
    ∧ (∀ k', k' ∈ keys → k' ≠ VNaN → (wrap64 (sum_of k' keys vals) <= q)%Z)
    ∧ ((∀ k', k' ∈ keys →
              (int64_min <= sum_of k' keys vals <= int64_max)%Z) →
       q = sum_of k keys vals
       ∧ ∀ k', k' ∈ keys → k' ≠ VNaN → (sum_of k' keys vals <= q)%Z).
Proof.
  intros Hpage Hti Ht He Hk Hk0 Hk0n Hc Hv r. subst r.
  destruct (table_Ok _ _ _ Hti) as (fi & Hfi & Hpi).
  destruct (table_Ok _ _ _ Ht) as (f & Hf & Hp).
  destruct (groupby_sum_groups "Item" "Quantity Wasted" df keys cells vals Hk Hc Hv)
    as (s & Hs & Hnd & Hkeys & Hsums).
  assert (Hne : s ≠ []).
  { intros ->. pose proof (proj2 (Hkeys k0) (conj Hk0 Hk0n)) as Hin.
    by apply elem_of_nil in Hin. }
  destruct (greatest_entry s (sort_values_desc s) Hne (sort_by_perm _ s))
    as (k & q & Hidx & Hmax & Hin & Hge).
  exists k, q.
  rewrite run_dispatch, Hpage. simpl page_body.
  rewrite (home_page_run (mkWorld true (init_files files) (Some Home) ∅ [])
             fi inv f df s eq_refl (init_files_lookup_Some _ _ _ Hfi) Hpi
             (init_files_lookup_Some _ _ _ Hf) Hp He Hs).
  rewrite Hidx, Hmax. simpl.
  assert (Hk' : k ∈ map fst s).
  { apply list_elem_of_In, in_map_iff. exists (k, q). split; [done|].
    by apply list_elem_of_In. }
  apply Hkeys in Hk' as [Hkin Hkn].
  assert (Hall : ∀ k', k' ∈ keys → k' ≠ VNaN →
                       (wrap64 (sum_of k' keys vals) <= q)%Z).
  { intros k' Hk'in Hk'n.
    assert (Hin' : k' ∈ map fst s) by (by apply Hkeys).
    apply list_elem_of_In, in_map_iff in Hin' as ([k'' q'] & Heq & Hin').
    simpl in Heq. subst k''. apply list_elem_of_In in Hin'.
    rewrite <- (Hsums k' q' Hin'). by apply (Hge k'). }
  split_and!; try done.
  - by apply Hsums.
  - intros Hsmall. split.
    + rewrite (Hsums k q Hin). by apply wrap64_small, Hsmall.
    + intros k' Hk'in Hk'n. rewrite <- (wrap64_small _ (Hsmall k' Hk'in)).
      by apply Hall.
Qed.

(** ** The columns of the table files *)



Section schema.

Context (inp : inputs).











Lemma readonly_bind {A B} (m : M A) (k : A → M B) :
  readonly m → (∀ a, readonly (k a)) → readonly (m ≫= k).
Proof.
  intros Hm Hk w. unfold mbind, M_bind. specialize (Hm w).
  destruct (m w) as [[a|e|] w']; simpl in *; [by rewrite Hk|done|done].
Qed.

Lemma readonly_read_csv path : readonly (read_csv path).
Proof. intros w. unfold read_csv. by destruct (file w path). Qed.

Lemma readonly_assign x df : readonly (assign x df).
Proof. done. Qed.

Lemma readonly_name x : readonly (name x).
Proof. intros w. unfold name. by destruct (ns w !! x). Qed.

Lemma readonly_emit u : readonly (emit u).
Proof. done. Qed.

Lemma readonly_lift {A} (r : result A) : readonly (lift r).
Proof. done. Qed.

Lemma readonly_ret {A} (a : A) : readonly (mret a : M A).
Proof. done. Qed.

Lemma readonly_when b (m : M unit) : readonly m → readonly (when b m).
Proof. intros Hm. by destruct b. Qed.

Ltac solve_readonly :=
  repeat first
    [ apply readonly_bind; [|intros ?]
    | apply readonly_when
    | apply readonly_read_csv
    | apply readonly_assign
    | apply readonly_name
    | apply readonly_emit
    | apply readonly_lift
    | apply readonly_ret ].

Lemma readonly_home_page : readonly home_page.
Proof. unfold home_page, load_inventory, load_waste_log. solve_readonly. Qed.

Lemma readonly_inventory_page : readonly inventory_page.
Proof. unfold inventory_page, load_inventory. solve_readonly. Qed.

Lemma readonly_analytics_page : readonly analytics_page.
Proof.
  unfold analytics_page, load_waste_log. solve_readonly.
  destruct (empty _); solve_readonly.
Qed.




End schema.



(** ** Sessions *)





(** ** The statements on sample data *)

Lemma analytics_reads_unbound_variable_witness :
  outcome (run open_analytics sample_files None) = Raise (NameError "waste_df")
  ∧ shown (run open_analytics sample_files None) = []
  ∧ ns (run open_analytics sample_files None).2 !! "df" = Some sample_waste_frame
  ∧ ns (run open_analytics sample_files None).2 !! "waste_df" = None.
Proof.
  apply (analytics_reads_unbound_variable open_analytics sample_files None
           sample_waste_frame); vm_compute; reflexivity.
Defined.




Lemma init_creates_missing_keeps_existing_witness :
  ∃ w', init_data_files
          (mkWorld true (<[inventory_file := sample_inventory]> ∅) None ∅ [])
        = (Ok (), w')
    ∧ data_dir w' = true
    ∧ fs w' !! inventory_file = Some sample_inventory
    ∧ fs w' !! waste_log_file = Some [waste_columns]
    ∧ (∀ path, path ≠ inventory_file → path ≠ waste_log_file →
               fs w' !! path
               = (<[inventory_file := sample_inventory]> ∅ : gmap string csv)
                   !! path)
    ∧ parse_csv [inventory_columns] = Ok (mkDF inventory_columns [])
    ∧ parse_csv [waste_columns] = Ok (mkDF waste_columns []).
Proof.
  destruct (proj1 (init_creates_missing_keeps_existing
                     (mkWorld true (<[inventory_file := sample_inventory]> ∅)
                              None ∅ [])) eq_refl)
    as (w' & Hrun & Hdir & Hi & Hw & Hother & Hpi & Hpw).
  exists w'. split_and!; done.
Defined.


Lemma home_crashes_when_items_missing_witness :
  outcome (run open_home unnamed_files None) = Raise ValueError
  ∧ shown (run open_home unnamed_files None)
    = [Metric "Inventory Items"
         (len (mkDF inventory_columns
                 [(0, [VNaN; VInt 3; VStr "2024-03-15"; VStr "2024-12-31"])]));
       Metric "Waste Records"
         (len (mkDF waste_columns
                 [(0, [VNaN; VInt 2; VStr "spoiled"; VStr "2024-03-15"])]))].
Proof.
  apply (home_crashes_when_items_missing open_home unnamed_files None
           (mkDF inventory_columns
              [(0, [VNaN; VInt 3; VStr "2024-03-15"; VStr "2024-12-31"])])
           (mkDF waste_columns
              [(0, [VNaN; VInt 2; VStr "spoiled"; VStr "2024-03-15"])])
           [VNaN] [VInt 2] [2%Z]);
    try (vm_compute; reflexivity).
  by repeat constructor.
Defined.

Lemma inventory_delete_keeps_waste_log_witness :
  outcome (run click_del_inv sample_files (Some Admin)) = Ok ()
  ∧ (∃ df', files_after (run click_del_inv sample_files (Some Admin))
              !! inventory_file = Some (render_csv df')
            ∧ data df' = delete (index_choice click_del_inv)
                                (data sample_inventory_frame))
  ∧ files_after (run click_del_inv sample_files (Some Admin)) !! waste_log_file
    = Some sample_waste_log
  ∧ table (files_after (run click_del_inv sample_files (Some Admin)))
      waste_log_file = table sample_files waste_log_file.
Proof.
  apply (inventory_delete_keeps_waste_log click_del_inv sample_files (Some Admin)
           sample_inventory_frame sample_waste_log).
  - vm_compute. auto 10.
  - vm_compute. reflexivity.
  - reflexivity.
  - vm_compute. lia.
  - vm_compute. reflexivity.
Defined.


(** ** Where the statements of the specification fail *)




(** C8, where it fails.  On a disk without the directory data/ both table
    files are absent, and [init_data_files] creates neither: the first
    [to_csv] raises OSError. *)
Lemma init_without_directory_creates_nothing :
  file (mkWorld false ∅ None ∅ []) inventory_file = None
  ∧ init_data_files (mkWorld false ∅ None ∅ [])
    = (Raise (OSError inventory_file), mkWorld false ∅ None ∅ [])
  ∧ file (init_data_files (mkWorld false ∅ None ∅ [])).2 inventory_file = None
  ∧ file (init_data_files (mkWorld false ∅ None ∅ [])).2 waste_log_file = None
  ∧ ¬ (∃ w', init_data_files (mkWorld false ∅ None ∅ []) = (Ok (), w')
             ∧ file w' inventory_file = Some [inventory_columns]).
Proof.
  split_and!; try reflexivity.
  intros (w' & Hw & _). discriminate Hw.
Qed.

(** ** Examples *)

Example parse_int64_examples :
  parse_int64 "007" = Some 7%Z ∧ parse_int64 "+5" = Some 5%Z
  ∧ parse_int64 "-12" = Some (-12)%Z ∧ parse_int64 "" = None
  ∧ parse_int64 "1.5" = None ∧ parse_int64 "+-5" = None
  ∧ parse_int64 "9223372036854775807" = Some int64_max
  ∧ parse_int64 "9223372036854775808" = None.
Proof. repeat split; reflexivity. Qed.

Example strftime_example : strftime_Ymd (mkdate 2024 2 1) = "2024-02-01".
Proof. reflexivity. Qed.

Example read_Ymd_example : read_Ymd "2024-02-01" = Some (mkdate 2024 2 1).
Proof. reflexivity. Qed.

(** fields that are text whatever parser reads them, and fields that are
    not *)
Example texty_examples :
  texty "Rice" = true ∧ texty "2024-02-01" = true ∧ texty "expired" = true
  ∧ texty "10.0" = false ∧ texty "1e5" = false ∧ texty " 7" = false
  ∧ texty "True" = false ∧ texty "inf" = false ∧ texty "NA" = false
  ∧ texty "" = false ∧ texty "12" = false.
Proof. repeat split; reflexivity. Qed.

(** an empty Item field is read as a missing value, a column of integer
    fields as integers *)
Example parse_csv_example :
  parse_csv [["Item"; "Quantity Wasted"]; ["Rice"; "5"]; [""; "007"]]
  = Ok (mkDF ["Item"; "Quantity Wasted"]
          [(0, [VStr "Rice"; VInt 5]); (1, [VNaN; VInt 7])]).
Proof. reflexivity. Qed.

(** what the embedding leaves to pandas: a column with a decimal fraction,
    an integer beside a missing value, a first record with more fields than
    the header, a header that names a column twice *)
Example parse_csv_beyond :
  parse_csv [["Item"; "Quantity"]; ["Rice"; "10.0"]] = Beyond
  ∧ parse_csv [["Item"; "Quantity"]; ["Rice"; "10"]; ["Beans"; ""]] = Beyond
  ∧ parse_csv [["Item"; "Quantity"]; ["Rice"; "10"; "x"]] = Beyond
  ∧ parse_csv [["Item"; "Item"]; ["Rice"; "10"]] = Beyond.
Proof. repeat split; reflexivity. Qed.

(** what [read_csv] rejects: a file without a line, and a record after the
    first with more fields than the header *)
Example parse_csv_rejects :
  parse_csv [] = Raise EmptyDataError
  ∧ parse_csv [["Item"; "Quantity"]; ["Rice"; "10"]; ["Beans"; "4"; "x"]]
    = Raise ParserError.
Proof. split; reflexivity. Qed.

(** four columns: up to 131072 records are read in one chunk *)
Example one_chunk_example :
  one_chunk inventory_columns (replicate (Z.to_nat 131072) []) = true
  ∧ one_chunk inventory_columns (replicate (Z.to_nat 131073) []) = false
  ∧ parse_csv (inventory_columns
                 :: replicate (Z.to_nat 131073)
                      ["Rice"; "10"; "2024-01-01"; "2024-06-01"])
    = Beyond.
Proof. split_and!; vm_compute; reflexivity. Qed.

Example number_input_examples :
  number_input 1 3 = 3%Z ∧ number_input 1 0 = 1%Z
  ∧ number_input 1 (2 ^ 53 - 1) = (2 ^ 53 - 1)%Z
  ∧ number_input 1 (2 ^ 53) = 1%Z.
Proof. repeat split; reflexivity. Qed.

Example groupby_sum_example :
  groupby_sum "Item" "Quantity Wasted" sample_waste_frame
  = Ok [(VStr "Beans", 5%Z); (VStr "Rice", 7%Z)].
Proof. reflexivity. Qed.

(** a sum that leaves the int64 range wraps around, and the Home page then
    reports another item *)
Example home_sum_wraps :
  shown (run open_home
           (<[waste_log_file :=
                [waste_columns;
                 ["Rice"; "9223372036854775807"; "expired"; "2024-02-01"];
                 ["Rice"; "1"; "expired"; "2024-02-01"];
                 ["Beans"; "5"; "expired"; "2024-02-01"]]]> ∅) None)
  = [Metric "Inventory Items" 0; Metric "Waste Records" 3;
     MostWasted (VStr "Beans") 5].
Proof. vm_compute. reflexivity. Qed.

(** First run in an empty directory data/: both files are created, Home
    shows two counts of 0 and no most-wasted line. *)
Example first_run :
  outcome (run (sample_inputs [] 0) ∅ None) = Ok ()
  ∧ shown (run (sample_inputs [] 0) ∅ None)
    = [Metric "Inventory Items" 0; Metric "Waste Records" 0]
  ∧ files_after (run (sample_inputs [] 0) ∅ None) !! inventory_file
    = Some [inventory_columns]
  ∧ files_after (run (sample_inputs [] 0) ∅ None) !! waste_log_file
    = Some [waste_columns].
Proof. split_and!; vm_compute; reflexivity. Qed.

(** First run without the directory data/: the script stops in
    [init_data_files], before the sidebar, and shows nothing. *)
Example first_run_without_directory :
  outcome (run_without_data_dir (sample_inputs [] 0) None)
  = Raise (OSError inventory_file)
  ∧ shown (run_without_data_dir (sample_inputs [] 0) None) = []
  ∧ files_after (run_without_data_dir (sample_inputs [] 0) None) = ∅.
Proof. split_and!; vm_compute; reflexivity. Qed.

(** One inventory row and an empty waste log: 1 item, 0 waste records, no
    most-wasted line. *)
Example home_without_waste :
  shown (run open_home
           (<[inventory_file :=
                [inventory_columns; ["Rice"; "10"; "2024-01-01"; "2024-06-01"]]]>
              ∅) None)
  = [Metric "Inventory Items" 1; Metric "Waste Records" 0].
Proof. vm_compute. reflexivity. Qed.

(** Empty inventory: the Log Waste page shows its empty state and no form. *)
Example log_waste_empty_inventory :
  shown (run (sample_inputs ["log_waste"] 0) ∅ None)
  = [Info "Inventory empty."; Info "No waste logs to delete."]
  ∧ files_after (run (sample_inputs ["log_waste"] 0) ∅ None)
      !! waste_log_file = Some [waste_columns].
Proof. split; vm_compute; reflexivity. Qed.

(** Home on the sample files: Rice with 7 units. *)
Example home_most_wasted :
  shown (run open_home sample_files None)
  = [Metric "Inventory Items" 2; Metric "Waste Records" 3;
     MostWasted (VStr "Rice") 7].
Proof. vm_compute. reflexivity. Qed.

(** The tie of the specification: Rice and Beans both at 5. *)
Example home_tie :
  ∃ k, shown (run open_home
                (<[waste_log_file := [waste_columns;
                                      ["Rice"; "5"; "expired"; "2024-02-01"];
                                      ["Beans"; "5"; "expired"; "2024-02-01"]]]>
                   ∅) None)
       = [Metric "Inventory Items" 0; Metric "Waste Records" 2; MostWasted k 5]
       ∧ (k = VStr "Rice" ∨ k = VStr "Beans").
Proof. eexists. split; [vm_compute; reflexivity|]. by right. Qed.

(** The failing waste log of the Home page is what the application itself
    writes when an item was added without a name. *)
Example unnamed_item_session_crashes :
  (replay unnamed_item_session ∅ None).1.1
  = [Ok (); Ok (); Ok (); Ok (); Raise ValueError]
  ∧ (replay unnamed_item_session ∅ None).1.2 !! waste_log_file
    = Some unnamed_waste_log
  ∧ (replay unnamed_item_session ∅ None).1.2 !! inventory_file
    = unnamed_files !! inventory_file.
Proof. split_and!; vm_compute; reflexivity. Qed.

(** Reset All in a browser session: the click on Reset All shows the
    warning, the click on Confirm Reset then runs the script with Reset All
    reporting no click; both files keep their records. *)
Example reset_session_keeps_records :
  forallb (fun inp => bool_decide (browser_run inp))
          [click_reset_all; click_confirm_reset] = true
  ∧ (replay [click_reset_all; click_confirm_reset] sample_files (Some Admin)).1.1
    = [Ok (); Ok ()]
  ∧ shown (run click_reset_all sample_files (Some Admin))
    = [Warning "Deletes ALL data."]
  ∧ (replay [click_reset_all; click_confirm_reset] sample_files (Some Admin)).1.2
    = sample_files.
Proof. split_and!; vm_compute; reflexivity. Qed.

(** Delete Entry in a browser session of the Admin panel: the click on
    Delete Inventory runs the script with Delete Entry reporting no click,
    and the inventory keeps the row. *)
Example admin_delete_session_keeps_row :
  forallb (fun inp => bool_decide (browser_run inp))
          [sample_inputs ["admin_delete"] 0; sample_inputs ["btn_del_inv"] 0]
  = true
  ∧ (replay [sample_inputs ["admin_delete"] 0; sample_inputs ["btn_del_inv"] 0]
            sample_files (Some Admin)).1.1
    = [Ok (); Ok ()]
  ∧ (replay [sample_inputs ["admin_delete"] 0; sample_inputs ["btn_del_inv"] 0]
            sample_files (Some Admin)).1.2
    = sample_files.
Proof. split_and!; vm_compute; reflexivity. Qed.

(** * Further properties *)

(** ** Initialization, twice *)

(** X5.  [init_data_files] run a second time changes nothing: after the
    first call both files exist, so neither test of [os.path.exists] fires
    again. *)
Theorem init_data_files_idempotent w :
  (init_data_files;; init_data_files) w = init_data_files w.
Proof.
  unfold mbind, M_bind. destruct (data_dir w) eqn:Hd.
  - rewrite (init_data_files_run w Hd).
    rewrite init_data_files_run by done. cbn [fs session_state ns out].
    by rewrite init_files_idem.
  - by rewrite (init_data_files_no_dir w Hd).
Qed.

(** ** What a page leaves as it was *)

Lemma stable_bind {T A B} (obs : world → T) (m : M A) (k : A → M B) :
  stable obs m → (∀ a, stable obs (k a)) → stable obs (m ≫= k).
Proof.
  intros Hm Hk w. unfold mbind, M_bind. specialize (Hm w).
  destruct (m w) as [[a|e|] w']; simpl in *; [by rewrite Hk|done|done].
Qed.

Lemma stable_when {T} (obs : world → T) b (m : M unit) :
  stable obs m → stable obs (when b m).
Proof. intros Hm. by destruct b. Qed.

Ltac stable_prim :=
  intros ?w;
  unfold load_inventory, load_waste_log, save_inventory, save_waste_log,
    read_csv, to_csv, file, assign, name, emit, lift, raise, mret, M_ret,
    other_files, but_inventory, but_waste_log;
  cbn [data_dir fs session_state ns out fst snd];
  repeat match goal with
         | |- context [match ?x with _ => _ end] => destruct x
         end;
  cbn [data_dir fs session_state ns out fst snd];
  first
    [ reflexivity
    | apply map_eq; intros ?p;
      repeat first
        [ rewrite lookup_delete_eq
        | rewrite lookup_delete_ne by congruence
        | rewrite lookup_insert_ne by congruence
        | match goal with
          | |- context [delete ?a _ !! ?b] => destruct (decide (a = b)) as [->|]
          end ];
      reflexivity ].

Ltac solve_stable :=
  repeat first
    [ apply stable_bind; [|intros ?]
    | apply stable_when
    | progress cbv zeta
    | match goal with
      | |- stable _ (if ?b then _ else _) => destruct b
      | |- stable _ (match ?x with _ => _ end) => destruct x
      end
    | stable_prim ].

Lemma page_body_keeps_page inp p : stable session_state (page_body inp p).
Proof.
  destruct p; simpl;
    unfold home_page, inventory_page, add_page, waste_page, log_waste_form,
      delete_waste_entry, analytics_page, admin_page, admin_delete_from;
    solve_stable.
Qed.

Lemma page_body_other_files inp p : stable other_files (page_body inp p).
Proof.
  destruct p; simpl;
    unfold home_page, inventory_page, add_page, waste_page, log_waste_form,
      delete_waste_entry, analytics_page, admin_page, admin_delete_from;
    solve_stable.
Qed.

Lemma add_page_but_inventory inp : stable but_inventory (add_page inp).
Proof. unfold add_page. solve_stable. Qed.

Lemma waste_page_but_waste_log inp : stable but_waste_log (waste_page inp).
Proof.
  unfold waste_page, log_waste_form, delete_waste_entry. solve_stable.
Qed.

(** ** Navigation *)


(** X4.  The next run, when no sidebar button is pressed in it, executes
    the page of the run before. *)
Theorem page_persists inp inp' files ss :
  no_navigation inp' →
  landing inp' (session_state (run inp files ss).2) = landing inp ss.
Proof.
  intros (H1 & H2 & H3 & H4 & H5 & H6).
  rewrite run_dispatch, page_body_keeps_page. cbn [session_state].
  unfold landing at 1. by rewrite H1, H2, H3, H4, H5, H6.
Qed.

(** ** Which files a run writes *)

(** X6.  A run writes at most the table files of its page: Home, Inventory
    and Analytics write nothing, Add Inventory only the inventory file, Log
    Waste only the waste log, the Admin panel only the two table files.
    Every other path holds after the run what initialization left there. *)
Theorem writes_are_confined inp files ss path :
  path ∉ own_files (landing inp ss) →
  files_after (run inp files ss) !! path = init_files files !! path.
Proof.
  intros Hpath. rewrite run_dispatch. unfold files_after.
  set (w := mkWorld true (init_files files) (Some (landing inp ss)) ∅ []).
  change (init_files files) with (fs w).
  destruct (landing inp ss) eqn:Hp; simpl in Hpath; simpl page_body.
  - by rewrite readonly_home_page.
  - by rewrite readonly_inventory_page.
  - apply not_elem_of_cons in Hpath as [Hne _].
    pose proof (add_page_but_inventory inp w) as H. unfold but_inventory in H.
    apply (f_equal (fun m => m !! path)) in H.
    by rewrite !lookup_delete_ne in H.
  - apply not_elem_of_cons in Hpath as [Hne _].
    pose proof (waste_page_but_waste_log inp w) as H. unfold but_waste_log in H.
    apply (f_equal (fun m => m !! path)) in H.
    by rewrite !lookup_delete_ne in H.
  - by rewrite readonly_analytics_page.
  - apply not_elem_of_cons in Hpath as [Hne1 Hpath].
    apply not_elem_of_cons in Hpath as [Hne2 _].
    pose proof (page_body_other_files inp Admin w) as H. unfold other_files in H.
    apply (f_equal (fun m => m !! path)) in H.
    by rewrite !lookup_delete_ne in H.
Qed.

Lemma page_body_idle inp p : no_action inp → stable fs (page_body inp p).
Proof.
  intros (Ha & Hl & Hd & Hi & Hw & Hr).
  destruct p; simpl;
    unfold home_page, inventory_page, add_page, waste_page, log_waste_form,
      delete_waste_entry, analytics_page, admin_page, admin_delete_from;
    rewrite ?Ha, ?Hl, ?Hd, ?Hi, ?Hw, ?Hr; unfold when; cbv iota;
    solve_stable.
Qed.

(** the Admin panel writes nothing without a click on one of its two outer
    buttons, and nothing without a click on one of its three inner ones *)
Lemma admin_page_outer inp :
  admin_delete inp = false → admin_reset inp = false →
  stable fs (admin_page inp).
Proof.
  intros Hd Hr. unfold admin_page. rewrite Hd, Hr. unfold when. cbv iota.
  solve_stable.
Qed.

Lemma admin_page_idle inp :
  btn_del_inv inp = false → btn_del_admin_waste inp = false →
  btn_confirm_reset inp = false →
  stable fs (admin_page inp).
Proof.
  intros Hi Hw Hr. unfold admin_page, admin_delete_from.
  rewrite Hi, Hw, Hr. unfold when. cbv iota. solve_stable.
Qed.

(** X7.  Only the action buttons write: a run in which none of Add Item,
    Log Waste, Delete Waste Entry, Delete Inventory, Delete Waste and
    Confirm Reset reports a click leaves every file as initialization left
    it, whatever page it shows and however it ends. *)
Theorem no_click_no_write inp files ss :
  no_action inp → files_after (run inp files ss) = init_files files.
Proof.
  intros Hidle. rewrite run_dispatch. unfold files_after.
  by rewrite (page_body_idle inp _ Hidle).
Qed.

(** X8.  The confirm buttons of the Admin panel sit inside the branches of
    Delete Entry and Reset All: when neither of these two reports a click,
    the run writes nothing, also when Delete Inventory, Delete Waste or
    Confirm Reset are reported as clicked. *)
Theorem admin_needs_outer_click inp files ss :
  landing inp ss = Admin →
  admin_delete inp = false → admin_reset inp = false →
  files_after (run inp files ss) = init_files files.
Proof.
  intros Hpage Hd Hr. rewrite run_dispatch, Hpage. simpl page_body.
  unfold files_after. by rewrite (admin_page_outer inp Hd Hr).
Qed.

(** ** Reset All *)

(** C5, as the code behaves.  The Confirm Reset button is created inside the
    branch of the Reset All button, and a button reports its click only in
    the run that the click triggers.  So no run of a browser session on the
    Admin panel writes a file.  The run that the click on Reset All
    triggers shows the warning and stops there, since Confirm Reset reports
    no click in it.  The run that the click on Confirm Reset triggers finds
    Reset All without a click, does not enter the branch, renders none of
    the four sub-panels and ends well: both files are as they were, with
    all their records.  The two saves of lines 200 and 201 are never
    executed. *)
Theorem confirm_reset_click_resets_nothing inp files ss :
  browser_run inp →
  landing inp ss = Admin →
  let r := run inp files ss in
  files_after r = init_files files
  ∧ (∀ f, files !! inventory_file = Some f →
          files_after r !! inventory_file = Some f)
  ∧ (∀ f, files !! waste_log_file = Some f →
          files_after r !! waste_log_file = Some f)
  ∧ (admin_reset inp = true →
     btn_confirm_reset inp = false
     ∧ outcome r = Ok () ∧ shown r = [Warning "Deletes ALL data."])
  ∧ (btn_confirm_reset inp = true →
     admin_reset inp = false ∧ outcome r = Ok () ∧ shown r = []).
Proof.
  intros Hrun Hpage r.
  assert (Hfiles : files_after r = init_files files).
  { subst r. rewrite run_dispatch, Hpage. simpl page_body. unfold files_after.
    destruct (admin_delete inp) eqn:Hd.
    - assert (Hb : buttons inp !! 10 = Some true) by (simpl; by rewrite Hd).
      rewrite (admin_page_idle inp); [done| | |].
      + by apply (browser_run_other inp 10 11 _ Hrun Hb).
      + by apply (browser_run_other inp 10 12 _ Hrun Hb).
      + by apply (browser_run_other inp 10 14 _ Hrun Hb).
    - destruct (admin_reset inp) eqn:Hr.
      + assert (Hb : buttons inp !! 13 = Some true) by (simpl; by rewrite Hr).
        rewrite (admin_page_idle inp); [done| | |].
        * by apply (browser_run_other inp 13 11 _ Hrun Hb).
        * by apply (browser_run_other inp 13 12 _ Hrun Hb).
        * by apply (browser_run_other inp 13 14 _ Hrun Hb).
      + by rewrite (admin_page_outer inp Hd Hr). }
  rewrite Hfiles. split_and!; try done.
  - intros f Hf. by apply init_files_lookup_Some.
  - intros f Hf. by apply init_files_lookup_Some.
  - intros Hr.
    assert (Hb : buttons inp !! 13 = Some true) by (simpl; by rewrite Hr).
    assert (Hv : view_raw inp = false)
      by (by apply (browser_run_other inp 13 9 _ Hrun Hb)).
    assert (Hd : admin_delete inp = false)
      by (by apply (browser_run_other inp 13 10 _ Hrun Hb)).
    assert (Hc : btn_confirm_reset inp = false)
      by (by apply (browser_run_other inp 13 14 _ Hrun Hb)).
    assert (Hdl : admin_download inp = false)
      by (by apply (browser_run_other inp 13 15 _ Hrun Hb)).
    subst r. rewrite run_dispatch, Hpage. simpl page_body.
    unfold admin_page. rewrite Hv, Hd, Hr, Hc, Hdl.
    unfold outcome, shown. step. step. done.
  - intros Hc.
    assert (Hb : buttons inp !! 14 = Some true) by (simpl; by rewrite Hc).
    assert (Hv : view_raw inp = false)
      by (by apply (browser_run_other inp 14 9 _ Hrun Hb)).
    assert (Hd : admin_delete inp = false)
      by (by apply (browser_run_other inp 14 10 _ Hrun Hb)).
    assert (Hr : admin_reset inp = false)
      by (by apply (browser_run_other inp 14 13 _ Hrun Hb)).
    assert (Hdl : admin_download inp = false)
      by (by apply (browser_run_other inp 14 15 _ Hrun Hb)).
    subst r. rewrite run_dispatch, Hpage. simpl page_body.
    unfold admin_page. rewrite Hv, Hd, Hr, Hdl.
    unfold outcome, shown. step. step. done.
Qed.

(** ** Analytics, in full *)

(** X9.  The Analytics page never renders a chart or a table.  All it ever
    shows is the empty-state message, and it ends well exactly when the
    waste log loads and is empty: with a waste log that has rows it stops
    at the unbound [waste_df] before anything is rendered, with a file that
    cannot be parsed it stops at the load. *)
Theorem analytics_never_charts inp files ss :
  landing inp ss = Analytics →
  let r := run inp files ss in
  (∀ u, u ∈ shown r → u = Info "No records.")
  ∧ (outcome r = Ok ()
     ↔ ∃ df, table (init_files files) waste_log_file = Ok df ∧ empty df = true).
Proof.
  intros Hpage r. subst r. rewrite run_dispatch, Hpage. simpl page_body.
  destruct (init_files_present_waste files) as [f Hf].
  rewrite (table_lookup _ _ _ Hf).
  unfold analytics_page, outcome, shown. step. rewrite Hf.
  destruct (parse_csv f) as [df|e|]; step.
  - destruct (empty df) eqn:He; step.
    + split; [|split; [by eauto|done]].
      intros u Hu. by apply list_elem_of_singleton in Hu.
    + split; [by intros u Hu; apply elem_of_nil in Hu|].
      split; [done|]. intros (df' & [= <-] & ?). congruence.
  - split; [by intros u Hu; apply elem_of_nil in Hu|].
    split; [done|]. by intros (df' & ? & ?).
  - split; [by intros u Hu; apply elem_of_nil in Hu|].
    split; [done|]. by intros (df' & ? & ?).
Qed.

(** ** The counts of the Home page *)

(** X10.  The two metrics of the Home page are the numbers of data records
    of the two files.  They are rendered before the most-wasted line is
    computed, so they stay on the page when that computation raises.  With
    a waste log without records the run ends well after the two metrics;
    the only thing that can follow them is the most-wasted line. *)
Theorem home_counts_records inp files ss fi fw inv df :
  landing inp ss = Home →
  init_files files !! inventory_file = Some fi → parse_csv fi = Ok inv →
  init_files files !! waste_log_file = Some fw → parse_csv fw = Ok df →
  let r := run inp files ss in
  ∃ rest,
    shown r = Metric "Inventory Items" (length (records fi))
              :: Metric "Waste Records" (length (records fw)) :: rest
    ∧ (records fw = [] → rest = [] ∧ outcome r = Ok ())
    ∧ (∀ u, u ∈ rest → ∃ k q, u = MostWasted k q).
Proof.
  intros Hpage Hfi Hpi Hfw Hpw r. subst r.
  rewrite run_dispatch, Hpage. simpl page_body.
  pose proof (parse_csv_len _ _ Hpi) as Hli.
  pose proof (parse_csv_len _ _ Hpw) as Hlw.
  pose proof (parse_csv_empty _ _ Hpw) as He.
  unfold home_page, shown, outcome. step. rewrite Hfi, Hpi. step.
  rewrite Hfw, Hpw. step. rewrite Hli, Hlw, He.
  case_bool_decide as Hrecs; step.
  - exists []. split_and!; [done|done|]. by intros u Hu; apply elem_of_nil in Hu.
  - destruct (groupby_sum "Item" "Quantity Wasted" df) as [s|e|]; step;
      try (exists []; split_and!; [done|done|by intros u Hu; apply elem_of_nil in Hu]).
    destruct (idxmax (sort_values_desc s)) as [k|e|]; step;
      try (exists []; split_and!; [done|done|by intros u Hu; apply elem_of_nil in Hu]).
    destruct (int_ (series_max s)) as [q|e|]; step;
      try (exists []; split_and!; [done|done|by intros u Hu; apply elem_of_nil in Hu]).
    exists [MostWasted k q]. split_and!; [done|done|].
    intros u Hu. apply list_elem_of_singleton in Hu. eauto.
Qed.

(** ** What is rendered only grows *)

Lemma grows_bind {A B} (m : M A) (k : A → M B) :
  grows m → (∀ a, grows (k a)) → grows (m ≫= k).
Proof.
  intros Hm Hk w. unfold mbind, M_bind. specialize (Hm w).
  destruct (m w) as [[a|e|] w']; [|done|done].
  etrans; [exact Hm|apply Hk].
Qed.

Lemma grows_when b (m : M unit) : grows m → grows (when b m).
Proof. intros Hm. destruct b; [done|]. by intros w. Qed.

Ltac grows_prim :=
  intros ?w;
  unfold load_inventory, load_waste_log, save_inventory, save_waste_log,
    read_csv, to_csv, file, assign, name, emit, lift, raise, mret, M_ret;
  cbn [data_dir fs session_state ns out fst snd];
  repeat match goal with
         | |- context [match ?x with _ => _ end] => destruct x
         end;
  cbn [data_dir fs session_state ns out fst snd];
  first [ reflexivity | by apply prefix_app_r ].

Ltac solve_grows :=
  repeat first
    [ apply grows_bind; [|intros ?]
    | apply grows_when
    | progress cbv zeta
    | match goal with
      | |- grows (if ?b then _ else _) => destruct b
      | |- grows (match ?x with _ => _ end) => destruct x
      end
    | grows_prim ].

Lemma grows_delete_waste_entry inp : grows (delete_waste_entry inp).
Proof. unfold delete_waste_entry. solve_grows. Qed.

Lemma delete_waste_entry_idle inp :
  btn_del_waste inp = false → stable fs (delete_waste_entry inp).
Proof.
  intros Hb. unfold delete_waste_entry. rewrite Hb. unfold when. cbv iota.
  solve_stable.
Qed.

Lemma column_empty c df col : column c df = Ok col → len df = 0 → col = [].
Proof.
  unfold column. destruct (col_pos c (columns df)); [|done]. intros [= <-] Hlen.
  rewrite len_data in Hlen. by destruct (data df).
Qed.

(** ** Log Waste without inventory *)

(** X11.  With an inventory without rows the Log Waste page shows
    "Inventory empty." in place of the form: the Log Waste button does not
    exist in that run, and a click reported for it logs nothing (the files
    stay as they are when Delete Waste Entry is not clicked either). *)
Theorem log_waste_needs_inventory inp files ss fi inv col :
  landing inp ss = Waste →
  init_files files !! inventory_file = Some fi →
  parse_csv fi = Ok inv →
  column "Item" inv = Ok col →
  records fi = [] →
  btn_del_waste inp = false →
  let r := run inp files ss in
  files_after r = init_files files
  ∧ head (shown r) = Some (Info "Inventory empty.").
Proof.
  intros Hpage Hfi Hpi Hcol Hrecs Hdel r. subst r.
  rewrite run_dispatch, Hpage. simpl page_body. unfold waste_page.
  assert (Hnil : col = []).
  { apply (column_empty _ _ _ Hcol). by rewrite (parse_csv_len _ _ Hpi), Hrecs. }
  assert (Hform : log_waste_form inp
                    (mkWorld true (init_files files) (Some Waste) ∅ [])
                  = (Ok (), mkWorld true (init_files files) (Some Waste) ∅
                              [Info "Inventory empty."])).
  { unfold log_waste_form. step. rewrite Hfi, Hpi. step. rewrite Hcol, Hnil. by step. }
  rewrite (bind_run _ _ _ _ _ Hform). unfold files_after, shown. split.
  - by rewrite (delete_waste_entry_idle inp Hdel).
  - pose proof (grows_delete_waste_entry inp
                  (mkWorld true (init_files files) (Some Waste) ∅
                     [Info "Inventory empty."])) as [o Ho].
    cbn [out] in Ho. by rewrite Ho.
Qed.

(** ** The delete flows on an empty table *)

Lemma delete_waste_entry_empty inp w f df :
  data_dir w = true →
  fs w !! waste_log_file = Some f → parse_csv f = Ok df → empty df = true →
  delete_waste_entry inp w
  = (Ok (), mkWorld true (fs w) (session_state w) (<["df" := df]> (ns w))
              (out w ++ [Info "No waste logs to delete."])).
Proof.
  intros Hd Hf Hp He. concrete w Hd.
  unfold delete_waste_entry. step. rewrite Hf, Hp. step.
  rewrite He. by step.
Qed.

Lemma admin_delete_from_empty path choice pressed done_msg empty_msg w f df :
  data_dir w = true →
  fs w !! path = Some f → parse_csv f = Ok df → empty df = true →
  admin_delete_from (read_csv path) (fun d => to_csv d path)
                    choice pressed done_msg empty_msg w
  = (Ok (), mkWorld true (fs w) (session_state w) (<["df" := df]> (ns w))
              (out w ++ [Info empty_msg])).
Proof.
  intros Hd Hf Hp He. concrete w Hd.
  unfold admin_delete_from. step. rewrite Hf, Hp. step.
  rewrite He. by step.
Qed.

(** X12.  The three delete flows on a table without rows: a confirm click
    deletes nothing and writes nothing, the run ends well, shows the
    empty-state message of the flow and reports no success. *)
Theorem delete_on_empty_table fl inp files ss df :
  confirmed fl inp ss →
  form_ready fl (init_files files) →
  table (init_files files) (flow_file fl) = Ok df →
  empty df = true →
  let r := run inp files ss in
  outcome r = Ok ()
  ∧ files_after r = init_files files
  ∧ last (shown r) = Some (Info (empty_message fl))
  ∧ ∀ msg, Success msg ∉ shown r.
Proof.
  intros Hconf Hready Ht He r. subst r.
  destruct (table_Ok _ _ _ Ht) as (f & Hf & Hp).
  rewrite run_dispatch.
  destruct fl; simpl in Hconf, Hready, Hf, Ht.
  - destruct Hconf as (Hpage & Hlog & Hdel).
    destruct Hready as (inv & col & Hti & Hcol).
    destruct (table_Ok _ _ _ Hti) as (fi & Hfi & Hpi).
    rewrite Hpage. simpl page_body. unfold waste_page.
    destruct (log_waste_form_idle inp
                (mkWorld true (init_files files) (Some Waste) ∅ [])
                fi inv col Hlog eq_refl Hfi Hpi Hcol) as (o & Hidle).
    assert (Ho : ∀ msg, Success msg ∉ o).
    { revert Hidle. unfold log_waste_form. step. rewrite Hfi, Hpi. step.
      rewrite Hcol. step. rewrite Hlog. case_bool_decide; step.
      - intros [= <-] msg Hin. by apply list_elem_of_singleton in Hin.
      - intros [= Ho] msg Hin. destruct o; [by apply elem_of_nil in Hin|done]. }
    rewrite (bind_run _ _ _ _ _ Hidle). cbn [fs session_state ns out].
    rewrite (delete_waste_entry_empty inp
               (mkWorld true (init_files files) (Some Waste) ∅ ([] ++ o)) f df
               eq_refl Hf Hp He).
    unfold outcome, files_after, shown. cbn [fst snd fs out app].
    split_and!; [done|done|by rewrite last_snoc|].
    intros msg Hin. apply elem_of_app in Hin as [Hin|Hin]; [by apply (Ho msg)|].
    by apply list_elem_of_singleton in Hin.
  - destruct Hconf as (Hpage & Hv & Had & Hfrom & Hdel & Hreset & Hdl).
    rewrite Hpage. simpl page_body.
    rewrite admin_page_delete by done. rewrite Hfrom. simpl.
    rewrite (admin_delete_from_empty inventory_file _ _ _ _
               (mkWorld true (init_files files) (Some Admin) ∅ []) f df
               eq_refl Hf Hp He).
    unfold outcome, files_after, shown. cbn [fst snd fs out app].
    split_and!; [done|done|done|].
    intros msg Hin. by apply list_elem_of_singleton in Hin.
  - destruct Hconf as (Hpage & Hv & Had & Hfrom & Hdel & Hreset & Hdl).
    rewrite Hpage. simpl page_body.
    rewrite admin_page_delete by done. rewrite Hfrom. simpl.
    rewrite (admin_delete_from_empty waste_log_file _ _ _ _
               (mkWorld true (init_files files) (Some Admin) ∅ []) f df
               eq_refl Hf Hp He).
    unfold outcome, files_after, shown. cbn [fst snd fs out app].
    split_and!; [done|done|done|].
    intros msg Hin. by apply list_elem_of_singleton in Hin.
Qed.

(** ** The item of a logged record *)


(** ** View Data and Download CSV *)


(** ** A table file that cannot be read *)

(** X15.  The script catches no exception.  On the pages that load the
    inventory first (Home, Inventory and Log Waste), an inventory file that
    [read_csv] rejects ends the run with that exception before anything is
    rendered, and no file is written. *)
Theorem unreadable_inventory_is_fatal inp files ss e :
  landing inp ss ∈ [Home; Inventory; Waste] →
  table (init_files files) inventory_file = Raise e →
  let r := run inp files ss in
  outcome r = Raise e ∧ shown r = [] ∧ files_after r = init_files files.
Proof.
  intros Hpage Ht r. subst r. rewrite run_dispatch.
  destruct (init_files_present_inventory files) as [f Hf].
  rewrite (table_lookup _ _ _ Hf) in Ht.
  unfold outcome, shown, files_after.
  apply elem_of_cons in Hpage as [->|Hpage];
    [|apply elem_of_cons in Hpage as [->|Hpage];
      [|apply list_elem_of_singleton in Hpage as ->]];
    simpl page_body;
    unfold home_page, inventory_page, waste_page, log_waste_form;
    step; rewrite Hf, Ht; by step.
Qed.

(** ** The exceptions of the pandas operations *)

Lemma parse_csv_data_error f e : parse_csv f = Raise e → data_error e = true.
Proof.
  destruct f as [|header recs]; [by intros [= <-]|]. unfold parse_csv.
  destruct (_ || _); [done|].
  destruct (existsb _ recs); [by intros [= <-]|].
  by destruct (mapM _ _).
Qed.

Lemma column_data_error c df e : column c df = Raise e → data_error e = true.
Proof. unfold column. destruct (col_pos c (columns df)); [done|by intros [= <-]]. Qed.

Lemma groupby_sum_data_error by_ c df e :
  groupby_sum by_ c df = Raise e → data_error e = true.
Proof.
  unfold groupby_sum.
  destruct (column by_ df) eqn:Hb;
    [|intros [= <-]; by eapply column_data_error|done].
  destruct (column c df) eqn:Hc;
    [|intros [= <-]; by eapply column_data_error|done].
  by destruct (mapM as_int _).
Qed.

Lemma idxmax_data_error s e : idxmax s = Raise e → data_error e = true.
Proof. destruct s; [by intros [= <-]|done]. Qed.

(** [int] is only called on the greatest value of a Series *)
Lemma int_max_data_error s e :
  int_ (series_max s) = Raise e → data_error e = true.
Proof. destruct s; simpl; [by intros [= <-]|done]. Qed.

Lemma loc_data_error i df e : loc i df = Raise e → data_error e = true.
Proof. unfold loc. case_bool_decide; [done|by intros [= <-]]. Qed.

Lemma drop_data_error i df e : drop i df = Raise e → data_error e = true.
Proof. unfold drop. case_bool_decide; [done|by intros [= <-]]. Qed.

Lemma concat_data_error a b e : concat a b = Raise e → data_error e = true.
Proof. unfold concat. by destruct (existsb _ _). Qed.

Lemma loc_cell_data_error x c df e :
  loc_cell x c df = Raise e → data_error e = true.
Proof.
  unfold loc_cell. destruct (col_pos c (columns df)); [|by intros [= <-]].
  destruct (list_find _ _) as [[? ?]|]; [done|by intros [= <-]].
Qed.

Lemma entry_label_data_error df x e :
  entry_label df x = Raise e → data_error e = true.
Proof.
  unfold entry_label.
  destruct (loc_cell x "Item" df) eqn:H1; simpl;
    [|intros [= <-]; by eapply loc_cell_data_error|done].
  destruct (loc_cell x "Waste Date" df) eqn:H2; simpl;
    [done|intros [= <-]; by eapply loc_cell_data_error|done].
Qed.

Lemma mapM_data_error {A B} (f : A → result B) l e :
  (∀ x e', f x = Raise e' → data_error e' = true) →
  mapM f l = Raise e → data_error e = true.
Proof.
  intros Hf. induction l as [|x l IH]; simpl; [done|].
  destruct (f x) eqn:Hx; simpl; [|intros [= <-]; by eapply Hf|done].
  destruct (mapM f l); simpl; [done| |done]. intros [= <-]. by apply IH.
Qed.

(** ** The exceptions of the pages *)

Lemma sound_bind {A B} (m : M A) (k : A → M B) :
  sound m → (∀ a, sound (k a)) → sound (m ≫= k).
Proof.
  intros Hm Hk w Hw. unfold mbind, M_bind. specialize (Hm w Hw).
  destruct (m w) as [[a|e|] w']; simpl in *; [apply Hk, Hm| |].
  - split; [apply Hm|]. intros e' [= <-]. by apply Hm.
  - split; [apply Hm|done].
Qed.

Lemma sound_when b (m : M unit) : sound m → sound (when b m).
Proof. intros Hm. destruct b; [done|]. by intros w Hw. Qed.

Lemma present_insert files p f : present files → present (<[p := f]> files).
Proof.
  intros [Hi Hw]. split.
  - destruct (decide (p = inventory_file)) as [->|];
      [rewrite lookup_insert_eq; eauto|by rewrite lookup_insert_ne].
  - destruct (decide (p = waste_log_file)) as [->|];
      [rewrite lookup_insert_eq; eauto|by rewrite lookup_insert_ne].
Qed.

Ltac blame :=
  match goal with
  | H : parse_csv _ = Raise _ |- _ => exact (parse_csv_data_error _ _ H)
  | H : column _ _ = Raise _ |- _ => exact (column_data_error _ _ _ H)
  | H : groupby_sum _ _ _ = Raise _ |- _ => exact (groupby_sum_data_error _ _ _ _ H)
  | H : idxmax _ = Raise _ |- _ => exact (idxmax_data_error _ _ H)
  | H : int_ (series_max _) = Raise _ |- _ => exact (int_max_data_error _ _ H)
  | H : loc _ _ = Raise _ |- _ => exact (loc_data_error _ _ _ H)
  | H : drop _ _ = Raise _ |- _ => exact (drop_data_error _ _ _ H)
  | H : concat _ _ = Raise _ |- _ => exact (concat_data_error _ _ _ H)
  | H : mapM (entry_label _) _ = Raise _ |- _ =>
      exact (mapM_data_error _ _ _ (entry_label_data_error _) H)
  | |- _ => reflexivity
  end.

Ltac verdict :=
  split;
  [ split; [reflexivity|repeat apply present_insert; done]
  | let e := fresh "e" in
    intros e; cbn [fst snd]; first [ discriminate | intros [= <-]; blame ] ].

Ltac evaluate Hfi Hfw :=
  repeat (step; rewrite ?Hfi, ?Hfw;
          try match goal with
              | |- context [match ?x with _ => _ end] => destruct x eqn:?
              end).

Ltac solve_sound :=
  let w := fresh "w" in
  let Hd := fresh "Hd" in
  let fi := fresh "fi" in let Hfi := fresh "Hfi" in
  let fw := fresh "fw" in let Hfw := fresh "Hfw" in
  intros w [Hd [[fi Hfi] [fw Hfw]]];
  concrete w Hd;
  match goal with
  | _ : ?files !! inventory_file = Some _ |- _ =>
      assert (present files) by (split; eauto)
  end;
  evaluate Hfi Hfw; verdict.

Lemma sound_home_page : sound home_page.
Proof. unfold home_page. solve_sound. Qed.

Lemma sound_inventory_page : sound inventory_page.
Proof. unfold inventory_page. solve_sound. Qed.

Lemma sound_add_page inp : sound (add_page inp).
Proof. unfold add_page. solve_sound. Qed.

Lemma sound_log_waste_form inp : sound (log_waste_form inp).
Proof. unfold log_waste_form. solve_sound. Qed.

Lemma sound_delete_waste_entry inp : sound (delete_waste_entry inp).
Proof. unfold delete_waste_entry. solve_sound. Qed.

Lemma sound_admin_delete_inventory choice pressed m1 m2 :
  sound (admin_delete_from load_inventory save_inventory choice pressed m1 m2).
Proof. unfold admin_delete_from. solve_sound. Qed.

Lemma sound_admin_delete_waste choice pressed m1 m2 :
  sound (admin_delete_from load_waste_log save_waste_log choice pressed m1 m2).
Proof. unfold admin_delete_from. solve_sound. Qed.

Lemma sound_admin_page inp : sound (admin_page inp).
Proof.
  unfold admin_page. repeat (apply sound_bind; [|intros ?]).
  - apply sound_when. solve_sound.
  - apply sound_when. cbv zeta.
    destruct (String.eqb _ _);
      [apply sound_admin_delete_inventory|apply sound_admin_delete_waste].
  - apply sound_when. solve_sound.
  - apply sound_when. solve_sound.
Qed.

(** X16.  The exceptions of a run.  Where the directory data/ exists,
    [init_data_files] creates what is missing, so no load raises
    FileNotFoundError and no save raises OSError; and every variable is
    bound before its use except [waste_df] on the Analytics page.  So a run
    that raises there, raises an exception caused by the content of a table
    file (KeyError, EmptyDataError, ParserError or ValueError), or it is
    the Analytics page raising NameError for [waste_df].  Where the
    directory does not exist, every run raises OSError in
    [init_data_files]. *)
Theorem run_raises_data_errors_only inp files ss :
  (∀ e, outcome (run inp files ss) = Raise e →
        data_error e = true
        ∨ (landing inp ss = Analytics ∧ e = NameError "waste_df"))
  ∧ outcome (run_without_data_dir inp ss) = Raise (OSError inventory_file).
Proof.
  split; [|by rewrite run_without_data_dir_stops].
  intros e. rewrite run_dispatch. unfold outcome.
  assert (Hw : in_place (mkWorld true (init_files files)
                                 (Some (landing inp ss)) ∅ [])).
  { split; [done|apply init_files_present]. }
  destruct (landing inp ss); simpl page_body.
  - intros He. left. by apply (sound_home_page _ Hw).
  - intros He. left. by apply (sound_inventory_page _ Hw).
  - intros He. left. by apply (sound_add_page inp _ Hw).
  - intros He. left. revert He. unfold waste_page.
    apply (sound_bind _ _ (sound_log_waste_form inp)
             (fun _ => sound_delete_waste_entry inp) _ Hw).
  - destruct Hw as [_ [_ [fw Hfw]]]. cbn [fs] in Hfw.
    unfold analytics_page. step. rewrite Hfw.
    destruct (parse_csv fw) as [df|e0|] eqn:Hp; step.
    + destruct (empty df); step; [done|]. intros [= <-]. by right.
    + intros [= <-]. left. by eapply parse_csv_data_error.
    + done.
  - intros He. left. by apply (sound_admin_page inp _ Hw).
Qed.

(** ** Reading back what was written, with one more record *)




(** ** Log Waste, then Delete Waste Entry on the new entry *)




(** ** The further statements on sample data *)

Lemma writes_are_confined_witness :
  files_after (run click_add_item sample_files (Some Add)) !! waste_log_file
  = init_files sample_files !! waste_log_file.
Proof.
  apply (writes_are_confined click_add_item sample_files (Some Add)
           waste_log_file).
  vm_compute. intros H. inversion H as [|? ? ? H']; inversion H'.
Defined.

Lemma no_click_no_write_witness :
  files_after (run open_log_waste sample_files None) = init_files sample_files.
Proof.
  apply (no_click_no_write open_log_waste sample_files None).
  vm_compute. auto 10.
Defined.

Lemma page_persists_witness :
  landing idle (session_state (run open_log_waste sample_files None).2)
  = landing open_log_waste None.
Proof.
  apply (page_persists open_log_waste idle sample_files None).
  vm_compute. auto 10.
Defined.

Lemma analytics_never_charts_witness :
  (∀ u, u ∈ shown (run open_analytics ∅ None) → u = Info "No records.")
  ∧ (outcome (run open_analytics ∅ None) = Ok ()
     ↔ ∃ df, table (init_files ∅) waste_log_file = Ok df ∧ empty df = true).
Proof.
  apply (analytics_never_charts open_analytics ∅ None).
  vm_compute. reflexivity.
Defined.

Lemma home_counts_records_witness :
  ∃ rest,
    shown (run open_home sample_files None)
    = Metric "Inventory Items" (length (records sample_inventory))
        :: Metric "Waste Records" (length (records sample_waste_log)) :: rest
    ∧ (records sample_waste_log = [] →
       rest = [] ∧ outcome (run open_home sample_files None) = Ok ())
    ∧ (∀ u, u ∈ rest → ∃ k q, u = MostWasted k q).
Proof.
  apply (home_counts_records open_home sample_files None
           sample_inventory sample_waste_log
           sample_inventory_frame sample_waste_frame);
    vm_compute; reflexivity.
Defined.

Lemma home_reports_greatest_named_item_witness :
  ∃ k q,
    outcome (run open_home sample_files None) = Ok ()
    ∧ shown (run open_home sample_files None)
      = [Metric "Inventory Items" (len sample_inventory_frame);
         Metric "Waste Records" (len sample_waste_frame); MostWasted k q]
    ∧ k ∈ [VStr "Rice"; VStr "Beans"; VStr "Rice"] ∧ k ≠ VNaN
    ∧ q = wrap64 (sum_of k [VStr "Rice"; VStr "Beans"; VStr "Rice"] [5; 5; 2]%Z)
    ∧ (∀ k', k' ∈ [VStr "Rice"; VStr "Beans"; VStr "Rice"] → k' ≠ VNaN →
             (wrap64 (sum_of k' [VStr "Rice"; VStr "Beans"; VStr "Rice"] [5; 5; 2])
              <= q)%Z)
    ∧ ((∀ k', k' ∈ [VStr "Rice"; VStr "Beans"; VStr "Rice"] →
              (int64_min
               <= sum_of k' [VStr "Rice"; VStr "Beans"; VStr "Rice"] [5; 5; 2]
               <= int64_max)%Z) →
       q = sum_of k [VStr "Rice"; VStr "Beans"; VStr "Rice"] [5; 5; 2]%Z
       ∧ ∀ k', k' ∈ [VStr "Rice"; VStr "Beans"; VStr "Rice"] → k' ≠ VNaN →
               (sum_of k' [VStr "Rice"; VStr "Beans"; VStr "Rice"] [5; 5; 2]
                <= q)%Z).
Proof.
  apply (home_reports_greatest_named_item open_home sample_files None
           sample_inventory_frame sample_waste_frame
           [VStr "Rice"; VStr "Beans"; VStr "Rice"]
           [VInt 5; VInt 5; VInt 2] [5; 5; 2]%Z (VStr "Rice"));
    try (vm_compute; reflexivity).
  - by constructor.
  - discriminate.
Defined.

Lemma log_waste_needs_inventory_witness :
  files_after (run log_waste_on_empty ∅ None) = init_files ∅
  ∧ head (shown (run log_waste_on_empty ∅ None)) = Some (Info "Inventory empty.").
Proof.
  apply (log_waste_needs_inventory log_waste_on_empty ∅ None
           [inventory_columns] (mkDF inventory_columns []) []);
    vm_compute; reflexivity.
Defined.

Lemma delete_on_empty_table_witness :
  outcome (run click_del_admin_waste ∅ (Some Admin)) = Ok ()
  ∧ files_after (run click_del_admin_waste ∅ (Some Admin)) = init_files ∅
  ∧ last (shown (run click_del_admin_waste ∅ (Some Admin)))
    = Some (Info (empty_message AdminWaste))
  ∧ ∀ msg, Success msg ∉ shown (run click_del_admin_waste ∅ (Some Admin)).
Proof.
  apply (delete_on_empty_table AdminWaste click_del_admin_waste ∅ (Some Admin)
           (mkDF waste_columns [])).
  - vm_compute. auto 10.
  - exact I.
  - vm_compute. reflexivity.
  - reflexivity.
Defined.



Lemma unreadable_inventory_is_fatal_witness :
  outcome (run open_home blank_inventory None) = Raise EmptyDataError
  ∧ shown (run open_home blank_inventory None) = []
  ∧ files_after (run open_home blank_inventory None) = init_files blank_inventory.
Proof.
  apply (unreadable_inventory_is_fatal open_home blank_inventory None
           EmptyDataError).
  - vm_compute. by constructor.
  - vm_compute. reflexivity.
Defined.


Lemma admin_needs_outer_click_witness :
  files_after (run stray_confirm_clicks sample_files (Some Admin))
  = init_files sample_files.
Proof.
  apply (admin_needs_outer_click stray_confirm_clicks sample_files (Some Admin));
    vm_compute; reflexivity.
Defined.

Lemma confirm_reset_click_resets_nothing_witness :
  files_after (run click_confirm_reset sample_files (Some Admin))
  = init_files sample_files
  ∧ (∀ f, sample_files !! inventory_file = Some f →
          files_after (run click_confirm_reset sample_files (Some Admin))
            !! inventory_file = Some f)
  ∧ (∀ f, sample_files !! waste_log_file = Some f →
          files_after (run click_confirm_reset sample_files (Some Admin))
            !! waste_log_file = Some f)
  ∧ (admin_reset click_confirm_reset = true →
     btn_confirm_reset click_confirm_reset = false
     ∧ outcome (run click_confirm_reset sample_files (Some Admin)) = Ok ()
     ∧ shown (run click_confirm_reset sample_files (Some Admin))
       = [Warning "Deletes ALL data."])
  ∧ (btn_confirm_reset click_confirm_reset = true →
     admin_reset click_confirm_reset = false
     ∧ outcome (run click_confirm_reset sample_files (Some Admin)) = Ok ()
     ∧ shown (run click_confirm_reset sample_files (Some Admin)) = []).
Proof.
  apply (confirm_reset_click_resets_nothing click_confirm_reset sample_files
           (Some Admin)).
  - unfold browser_run. vm_compute. lia.
  - vm_compute. reflexivity.
Defined.

